(** * NeuralLog language core: terms, predicates, atoms and clauses

    A shallow embedding of [neurallog/language/language.py]: the term and
    clause classes, their keys, equality, ordering, rendering, and the
    structural algorithms [get_variable_atom], [get_renamed_atom] and
    [get_substitution], followed by the properties established about them.

    Conventions of the embedding.
    - A Python object is represented by its attributes; a class hierarchy by
      an inductive type with one constructor per concrete class.
    - A Python exception is a value of [exception]; a function that may
      raise returns [exc A].
    - A Python number is represented by its exact value (a rational) together
      with the text that the built-in [str] gives for it; [==] and [<] on
      numbers look at the value only, as in Python (1 == 1.0).  Not-a-number
      and the infinities are outside the model.
    - Strings are sequences of 8-bit characters; [isupper] and [islower] are
      those of the ASCII range. *)

From Stdlib Require Import Bool Arith ZArith QArith Lia List.
From Stdlib Require Import Ascii String DecimalString DecimalNat DecimalZ.
Import ListNotations.

Open Scope string_scope.
Open Scope list_scope.
Open Scope Z_scope.

Set Warnings "-register-all".

(** ** Exceptions and the error monad *)

Inductive exception : Type :=
| AtomMalformedException (expected found : Z)
| TermMalformedException
| IndexError
| TypeError.

Inductive exc (A : Type) : Type :=
| Ok (a : A)
| Raise (e : exception).

Arguments Ok {A} a.
Arguments Raise {A} e.

Definition bind {A B : Type} (m : exc A) (f : A -> exc B) : exc B :=
  match m with
  | Ok a => f a
  | Raise e => Raise e
  end.

Notation "x <- m ;; k" := (bind m (fun x => k))
  (at level 61, m at next level, right associativity).

(** ** Built-in values: numbers and strings *)

Module Py.

(** A number: its value and what [str] prints for it. *)
Record number : Type := mkNumber { num_value : Q; num_str : string }.

Definition str_nat (n : nat) : string :=
  NilEmpty.string_of_uint (Nat.to_uint n).

Definition str_int (z : Z) : string :=
  NilZero.string_of_int (Z.to_int z).

Definition of_int (z : Z) : number :=
  {| num_value := inject_Z z; num_str := str_int z |}.

(** The float literal [1.0], the default weight. *)
Definition float_one : number := {| num_value := 1%Q; num_str := "1.0" |}.

Definition num_eqb (a b : number) : bool :=
  Qeq_bool (num_value a) (num_value b).

Definition num_ltb (a b : number) : bool :=
  negb (Qle_bool (num_value b) (num_value a)).

(** [True == 1] and [False == 0]. *)
Definition of_bool (b : bool) : number := of_int (if b then 1 else 0).

(** [s[0]] and [s[-1]]; both raise IndexError on the empty string. *)
Definition first_char (s : string) : exc ascii :=
  match String.get 0 s with
  | Some c => Ok c
  | None => Raise IndexError
  end.

Definition last_char (s : string) : exc ascii :=
  match String.get (String.length s - 1) s with
  | Some c => Ok c
  | None => Raise IndexError
  end.

(** [s[1:-1]] *)
Definition strip_ends (s : string) : string :=
  String.substring 1 (String.length s - 2) s.

Definition between (lo hi c : ascii) : bool :=
  (nat_of_ascii lo <=? nat_of_ascii c)%nat && (nat_of_ascii c <=? nat_of_ascii hi)%nat.

Definition isupper (c : ascii) : bool := between "A" "Z" c.
Definition islower (c : ascii) : bool := between "a" "z" c.
Definition isdigit (c : ascii) : bool := between "0" "9" c.

(** The two quote marks: the apostrophe and the double quote (code 34). *)
Definition is_quote_mark (c : ascii) : bool :=
  Ascii.eqb c "'" || Ascii.eqb c (ascii_of_nat 34).

(** [str.join] *)
Definition join (sep : string) (parts : list string) : string :=
  String.concat sep parts.

(** Comparison operators that raise on operands of different kinds. *)
Inductive cmp_op : Type := OpLt | OpLe | OpGt | OpGe.

Definition cmp_of (op : cmp_op) (lt eq : bool) : bool :=
  match op with
  | OpLt => lt
  | OpLe => lt || eq
  | OpGt => negb (lt || eq)
  | OpGe => negb lt
  end.

Definition num_cmp (op : cmp_op) (a b : number) : bool :=
  cmp_of op (num_ltb a b) (num_eqb a b).

Definition str_cmp (op : cmp_op) (a b : string) : bool :=
  cmp_of op (String.ltb a b) (String.eqb a b).

End Py.

(** ** Lexical constants *)

Definition TRAINABLE_KEY : string := "$".
Definition WEIGHT_SEPARATOR : string := "::".
Definition NEGATION_KEY : string := "not".
Definition IMPLICATION_SIGN : string := ":-".
Definition END_SIGN : string := ".".

(** [PLACE_HOLDER = re.compile("({[a-zA-Z0-9_-]+})")] and its [search]. *)
Module PlaceHolder.

Definition is_name_char (c : ascii) : bool :=
  Py.islower c || Py.isupper c || Py.isdigit c
  || Ascii.eqb c "_" || Ascii.eqb c "-".

(** After an opening brace: one or more name characters, then a closing
    brace.  [seen] tells whether a name character was already read. *)
Fixpoint match_name (seen : bool) (s : string) : bool :=
  match s with
  | EmptyString => false
  | String c rest =>
      if is_name_char c then match_name true rest
      else Ascii.eqb c "}" && seen
  end.

Fixpoint search (s : string) : bool :=
  match s with
  | EmptyString => false
  | String c rest => (Ascii.eqb c "{" && match_name false rest) || search rest
  end.

End PlaceHolder.

(** ** Terms *)

(** One constructor per concrete subclass of [Term], holding the attributes
    that its [__init__] stores.  [Quote] stores the text without its quote
    characters, the template flag and the quote character; [TemplateTerm]
    stores its parts; [ListTerms] its items.  The attribute [value] of the
    last two is computed from those ([term_value] below).  The class
    [Variable] is written [Variable_], the plain name being reserved. *)
Inductive term : Type :=
| Constant (value : string)
| Variable_ (value : string)
| Quote (value : string) (_is_template : bool) (quote : string)
| Number (value : Py.number)
| TemplateTerm (parts : list string)
| ListTerms (items : list term).

(** [Quote.__init__(value)] *)
Definition Quote_init (raw : string) : exc term :=
  q <- Py.first_char raw ;;
  Ok (Quote (Py.strip_ends raw) (PlaceHolder.search raw) (String q EmptyString)).

(** [is_constant()] of each class. *)
Definition is_constant (t : term) : bool :=
  match t with
  | Constant _ => true
  | Variable_ _ => false
  | Quote _ tmpl _ => negb tmpl
  | Number _ => true
  | TemplateTerm _ => false
  | ListTerms _ => true
  end.

(** [is_template()] of each class; [ListTerms] looks for the first item
    that is a template. *)
Fixpoint is_template (t : term) : bool :=
  match t with
  | Constant _ => false
  | Variable_ _ => false
  | Quote _ tmpl _ => tmpl
  | Number _ => false
  | TemplateTerm _ => true
  | ListTerms items => existsb is_template items
  end.

(** [str(term)]: [Quote] and [Number] define [__str__]; the other classes
    fall back on [Term.__repr__], which returns the attribute [value].
    The value of a [ListTerms] is ["[" + ", ".join(map(str, items)) + "]"]. *)
Fixpoint term_str (t : term) : string :=
  match t with
  | Constant v => v
  | Variable_ v => v
  | Quote v _ q => q ++ v ++ q
  | Number n => Py.num_str n
  | TemplateTerm parts => Py.join "" parts
  | ListTerms items => "[" ++ Py.join ", " (map term_str items) ++ "]"
  end.

(** An element of a term's key: a string or a number. *)
Inductive kval : Type :=
| KStr (s : string)
| KNum (n : Py.number).

(** The attribute [value]. *)
Definition term_value (t : term) : kval :=
  match t with
  | Constant v | Variable_ v | Quote v _ _ => KStr v
  | Number n => KNum n
  | TemplateTerm _ | ListTerms _ => KStr (term_str t)
  end.

(** [Term.key] is [(self.value,)]; [Variable.key] is
    [(Variable.__class__.__name__, self.value)], and the class of a class
    is [type]. *)
Definition term_key (t : term) : list kval :=
  match t with
  | Variable_ v => [KStr "type"; KStr v]
  | _ => [term_value t]
  end.

(** [==] on key elements: a string never equals a number. *)
Definition kval_eqb (a b : kval) : bool :=
  match a, b with
  | KStr s1, KStr s2 => String.eqb s1 s2
  | KNum n1, KNum n2 => Py.num_eqb n1 n2
  | _, _ => false
  end.

(** [==] on tuples: same length and equal items. *)
Fixpoint tuple_eqb {A : Type} (eqb : A -> A -> bool) (k1 k2 : list A) : bool :=
  match k1, k2 with
  | [], [] => true
  | a :: r1, b :: r2 => eqb a b && tuple_eqb eqb r1 r2
  | _, _ => false
  end.

(** [Term.__eq__]; the argument is a term, so the [isinstance] test holds. *)
Definition Term___eq__ (self other : term) : bool :=
  tuple_eqb kval_eqb (term_key self) (term_key other).

Definition Term___ne__ (self other : term) : bool :=
  negb (Term___eq__ self other).

(** *** Ordering *)

(** An ordering comparison of two key elements; Python raises TypeError
    between a string and a number. *)
Definition kval_cmp (op : Py.cmp_op) (a b : kval) : exc bool :=
  match a, b with
  | KStr s1, KStr s2 => Ok (Py.str_cmp op s1 s2)
  | KNum n1, KNum n2 => Ok (Py.num_cmp op n1 n2)
  | _, _ => Raise TypeError
  end.

Definition len_cmp (op : Py.cmp_op) (n1 n2 : nat) : bool :=
  Py.cmp_of op (n1 <? n2)%nat (n1 =? n2)%nat.

(** Tuple comparison: the first pair of items that differ decides; when
    one tuple is a prefix of the other, the lengths decide. *)
Fixpoint tuple_cmp (op : Py.cmp_op) (k1 k2 : list kval) : exc bool :=
  match k1, k2 with
  | a :: r1, b :: r2 =>
      if kval_eqb a b then tuple_cmp op r1 r2 else kval_cmp op a b
  | _, _ => Ok (len_cmp op (List.length k1) (List.length k2))
  end.

Definition len_key (t : term) : list kval :=
  KNum (Py.of_int (Z.of_nat (List.length (term_key t)))) :: term_key t.

(** [__lt__] puts the length of the key in front of the key; [__gt__],
    [__ge__] and [__le__] compare the keys as they are. *)
Definition Term___lt__ (self other : term) : exc bool :=
  tuple_cmp Py.OpLt (len_key self) (len_key other).

Definition Term___gt__ (self other : term) : exc bool :=
  tuple_cmp Py.OpGt (term_key self) (term_key other).

Definition Term___ge__ (self other : term) : exc bool :=
  tuple_cmp Py.OpGe (term_key self) (term_key other).

Definition Term___le__ (self other : term) : exc bool :=
  tuple_cmp Py.OpLe (term_key self) (term_key other).

Definition term_compare (op : Py.cmp_op) : term -> term -> exc bool :=
  match op with
  | Py.OpLt => Term___lt__
  | Py.OpLe => Term___le__
  | Py.OpGt => Term___gt__
  | Py.OpGe => Term___ge__
  end.

(** The ordering as the specification words it: compare the pairs
    [(len(key), key)]. *)
Definition spec_term_compare (op : Py.cmp_op) (a b : term) : exc bool :=
  let la := List.length (term_key a) in
  let lb := List.length (term_key b) in
  if (la =? lb)%nat then tuple_cmp op (term_key a) (term_key b)
  else Ok (len_cmp op la lb).

(** *** Construction from strings *)

(** [get_term_from_string] *)
Definition get_term_from_string (s : string) : exc term :=
  c <- Py.first_char s ;;
  if Py.isupper c then Ok (Variable_ s)
  else if Py.islower c || Ascii.eqb c "_" then Ok (Constant s)
  else
    l <- Py.last_char s ;;
    if Ascii.eqb c l && Py.is_quote_mark c then Quote_init s
    else Raise TermMalformedException.

(** [get_constant_from_string] *)
Definition get_constant_from_string (s : string) : exc term :=
  c <- Py.first_char s ;;
  l <- Py.last_char s ;;
  if Ascii.eqb c l && Py.is_quote_mark c then Quote_init s
  else Ok (Constant s).

(** An argument handed to a constructor: a term, a string, a number, or
    any other object. *)
Inductive argument : Type :=
| ArgTerm (t : term)
| ArgStr (s : string)
| ArgNum (n : Py.number)
| ArgOther.

(** [build_terms] *)
Fixpoint build_terms (arguments : list argument) : exc (list term) :=
  match arguments with
  | [] => Ok []
  | a :: rest =>
      t <- match a with
           | ArgTerm t => Ok t
           | ArgStr s => get_term_from_string s
           | ArgNum n => Ok (Number n)
           | ArgOther => Raise TermMalformedException
           end ;;
      ts <- build_terms rest ;;
      Ok (t :: ts)
  end.

(** ** Predicates *)

(** A [Predicate] has a name and an arity; a [TemplatePredicate] also keeps
    its parts ([template_parts] is [None] for a plain predicate). *)
Record Predicate : Type := mkPredicate {
  name : string;
  arity : Z;
  template_parts : option (list string)
}.

Definition Predicate_init (name : string) (arity : Z) : Predicate :=
  mkPredicate name arity None.

Definition TemplatePredicate_init (parts : list string) (arity : Z) : Predicate :=
  mkPredicate (Py.join "" parts) arity (Some parts).

Definition Predicate_is_template (p : Predicate) : bool :=
  match template_parts p with Some _ => true | None => false end.

(** [isinstance(other, self.__class__)] *)
Definition Predicate_isinstance (other self : Predicate) : bool :=
  implb (Predicate_is_template self) (Predicate_is_template other).

(** [Predicate.__eq__]: the keys [(name, arity)] are compared. *)
Definition Predicate___eq__ (self other : Predicate) : bool :=
  if Predicate_isinstance other self
  then String.eqb (name self) (name other) && Z.eqb (arity self) (arity other)
  else false.

(** The operator [v == w]: when the class of [w] is a proper subclass of the
    class of [v], Python asks [w] first, and [__eq__] here always answers. *)
Definition Predicate_eq (v w : Predicate) : bool :=
  if Predicate_is_template w && negb (Predicate_is_template v)
  then Predicate___eq__ w v
  else Predicate___eq__ v w.

(** [v != w]: the default [__ne__] negates [__eq__]. *)
Definition Predicate_ne (v w : Predicate) : bool := negb (Predicate_eq v w).

(** [Predicate.equivalent] *)
Definition equivalent (self other : Predicate) : bool :=
  if (arity self <? 0) || (arity other <? 0)
  then String.eqb (name self) (name other)
  else Predicate_eq self other.

(** [Predicate.__repr__] *)
Definition Predicate___repr__ (p : Predicate) : string :=
  name p ++ "/" ++ Py.str_int (arity p).

(** ** Clauses *)

Inductive ClauseProvenance : Type :=
| FileDefinedClause (start_line : Z) (filename : string).

Definition ClauseProvenance___repr__ (p : ClauseProvenance) : string :=
  match p with
  | FileDefinedClause start_line filename =>
      "defined at line " ++ Py.str_int start_line ++ " in file " ++ filename
  end.

Record Atom : Type := mkAtom {
  predicate : Predicate;
  terms : list term;
  weight : Py.number;
  provenance : option ClauseProvenance
}.

(** A [Literal] is an [Atom] with the attribute [negated]. *)
Record Literal : Type := mkLiteral {
  literal_atom : Atom;
  negated : bool
}.

(** An instance of [Atom]: of the class itself or of its subclass. *)
Inductive atomic : Type :=
| AnAtom (a : Atom)
| ALiteral (l : Literal).

Definition as_atom (x : atomic) : Atom :=
  match x with
  | AnAtom a => a
  | ALiteral l => literal_atom l
  end.

Record AtomClause : Type := mkAtomClause {
  atom : Atom;
  atom_clause_provenance : option ClauseProvenance
}.

Record HornClause : Type := mkHornClause {
  head : atomic;
  body : list Literal;
  horn_clause_provenance : option ClauseProvenance
}.

(** [Atom.__init__(predicate, *args, weight, provenance)]; the predicate is
    a [Predicate] or a name. *)
Definition Atom_init (pred : Predicate + string) (args : list argument)
    (weight : Py.number) (provenance : option ClauseProvenance) : exc Atom :=
  let found := Z.of_nat (List.length args) in
  p <- match pred with
       | inl p =>
           if negb (arity p =? found)
           then Raise (AtomMalformedException (arity p) found)
           else Ok p
       | inr name => Ok (Predicate_init name found)
       end ;;
  ts <- build_terms args ;;
  Ok (mkAtom p ts weight provenance).

(** [Literal.__init__(atom, negated)] *)
Definition Literal_init (a : Atom) (negated : bool) : exc Literal :=
  base <- Atom_init (inl (predicate a)) (map ArgTerm (terms a))
            Py.float_one (provenance a) ;;
  Ok (mkLiteral base negated).

(** [AtomClause.__init__(atom)] *)
Definition AtomClause_init (a : Atom) : exc AtomClause :=
  copy <- Atom_init (inl (predicate a)) (map ArgTerm (terms a)) (weight a) None ;;
  Ok (mkAtomClause copy (provenance a)).

(** [HornClause.__init__(head, *body, provenance)] *)
Definition HornClause_init (head : atomic) (body : list Literal)
    (provenance : option ClauseProvenance) : HornClause :=
  mkHornClause head body provenance.

(** [Atom.arity], [Atom.__getitem__], [Atom.is_grounded],
    [Atom.get_number_of_variables], [Atom.is_template] *)
Definition Atom_arity (a : Atom) : Z := arity (predicate a).

Definition Atom___getitem__ (a : Atom) (item : nat) : exc term :=
  match nth_error (terms a) item with
  | Some t => Ok t
  | None => Raise IndexError
  end.

Definition is_grounded (a : Atom) : bool :=
  forallb is_constant (terms a).

Definition get_number_of_variables (a : Atom) : nat :=
  List.length (filter (fun t => negb (is_constant t)) (terms a)).

Definition Atom_is_template (a : Atom) : bool :=
  Predicate_is_template (predicate a) || existsb is_template (terms a).

Definition HornClause_is_template (c : HornClause) : bool :=
  Atom_is_template (as_atom (head c))
  || existsb (fun l => Atom_is_template (literal_atom l)) (body c).

(** *** Keys, equality *)

(** An element of the key of a clause. *)
Inductive pyval : Type :=
| VNum (n : Py.number)
| VBool (b : bool)
| VPred (p : Predicate)
| VTerms (ts : list term).

(** [==] between key elements; a bool is the number 0 or 1. *)
Definition pyval_eqb (a b : pyval) : bool :=
  match a, b with
  | VNum n1, VNum n2 => Py.num_eqb n1 n2
  | VBool b1, VBool b2 => Bool.eqb b1 b2
  | VNum n, VBool b | VBool b, VNum n => Py.num_eqb n (Py.of_bool b)
  | VPred p1, VPred p2 => Predicate_eq p1 p2
  | VTerms t1, VTerms t2 => tuple_eqb Term___eq__ t1 t2
  | _, _ => false
  end.

Definition Atom_key (a : Atom) : list pyval :=
  [VNum (weight a); VPred (predicate a); VTerms (terms a)].

Definition Literal_key (l : Literal) : list pyval :=
  VBool (negated l) :: Atom_key (literal_atom l).

Definition atomic_key (x : atomic) : list pyval :=
  match x with
  | AnAtom a => Atom_key a
  | ALiteral l => Literal_key l
  end.

Definition AtomClause_key (c : AtomClause) : list pyval := Atom_key (atom c).

(** The key of the head followed by the key of each body literal. *)
Definition HornClause_key (c : HornClause) : list pyval :=
  atomic_key (head c) ++ flat_map Literal_key (body c).

(** An instance of one of the concrete clause classes. *)
Inductive clause : Type :=
| OfAtom (a : Atom)
| OfLiteral (l : Literal)
| OfAtomClause (c : AtomClause)
| OfHornClause (c : HornClause).

Inductive clause_class : Type :=
| ClassAtom | ClassLiteral | ClassAtomClause | ClassHornClause.

Definition class_of (c : clause) : clause_class :=
  match c with
  | OfAtom _ => ClassAtom
  | OfLiteral _ => ClassLiteral
  | OfAtomClause _ => ClassAtomClause
  | OfHornClause _ => ClassHornClause
  end.

(** [issubclass(c, d)]: [Literal] extends [Atom]. *)
Definition issubclass (c d : clause_class) : bool :=
  match c, d with
  | ClassAtom, ClassAtom | ClassLiteral, ClassLiteral
  | ClassLiteral, ClassAtom
  | ClassAtomClause, ClassAtomClause | ClassHornClause, ClassHornClause => true
  | _, _ => false
  end.

Definition Clause_key (c : clause) : list pyval :=
  match c with
  | OfAtom a => Atom_key a
  | OfLiteral l => Literal_key l
  | OfAtomClause c => AtomClause_key c
  | OfHornClause c => HornClause_key c
  end.

(** [Clause.__eq__] *)
Definition Clause___eq__ (self other : clause) : bool :=
  if issubclass (class_of other) (class_of self)
  then tuple_eqb pyval_eqb (Clause_key self) (Clause_key other)
  else false.

(** The operator [v == w]: a proper subclass on the right answers first. *)
Definition Clause_eq (v w : clause) : bool :=
  match class_of v, class_of w with
  | ClassAtom, ClassLiteral => Clause___eq__ w v
  | _, _ => Clause___eq__ v w
  end.

(** [Clause.set_provenance] *)
Definition set_provenance (c : clause) (context : option ClauseProvenance) : clause :=
  match c with
  | OfAtom a => OfAtom (mkAtom (predicate a) (terms a) (weight a) context)
  | OfLiteral l =>
      let a := literal_atom l in
      OfLiteral (mkLiteral (mkAtom (predicate a) (terms a) (weight a) context)
                           (negated l))
  | OfAtomClause c => OfAtomClause (mkAtomClause (atom c) context)
  | OfHornClause c => OfHornClause (mkHornClause (head c) (body c) context)
  end.

(** *** Rendering *)

(** [Atom.__repr__] *)
Definition Atom___repr__ (a : Atom) : string :=
  match terms a with
  | [] =>
      if Py.num_eqb (weight a) Py.float_one then name (predicate a)
      else Py.num_str (weight a) ++ "::" ++ name (predicate a)
  | _ :: _ =>
      let text := (name (predicate a) ++ "("
                   ++ Py.join ", " (map term_str (terms a)) ++ ")")%string in
      if negb (Py.num_eqb (weight a) Py.float_one)
      then Py.num_str (weight a) ++ WEIGHT_SEPARATOR ++ text
      else text
  end.

(** [Literal.__repr__] *)
Definition Literal___repr__ (l : Literal) : string :=
  let text := Atom___repr__ (literal_atom l) in
  if negated l then NEGATION_KEY ++ " " ++ text else text.

Definition atomic_str (x : atomic) : string :=
  match x with
  | AnAtom a => Atom___repr__ a
  | ALiteral l => Literal___repr__ l
  end.

(** [AtomClause.__repr__] *)
Definition AtomClause___repr__ (c : AtomClause) : string :=
  Atom___repr__ (atom c) ++ END_SIGN.

(** What [format_horn_clause] iterates over: the list of body literals, or
    the single literal that replaces an empty body. *)
Inductive body_iterable : Type :=
| BodyList (ls : list Literal)
| BodyLiteral (l : Literal).

(** [map(lambda x: str(x), body)].  A [Literal] has [__getitem__] and no
    [__iter__], so iterating over it yields [l[0]], [l[1]], ... until
    IndexError: its terms. *)
Definition body_strs (b : body_iterable) : list string :=
  match b with
  | BodyList ls => map Literal___repr__ ls
  | BodyLiteral l => map term_str (terms (literal_atom l))
  end.

(** [format_horn_clause(head, body)] *)
Definition format_horn_clause (head : atomic) (body : list Literal) : exc string :=
  b <- match body with
       | [] =>
           t <- Atom_init (inr "true") [] Py.float_one None ;;
           l <- Literal_init t false ;;
           Ok (BodyLiteral l)
       | _ :: _ => Ok (BodyList body)
       end ;;
  Ok (atomic_str head ++ " " ++ IMPLICATION_SIGN ++ " "
      ++ Py.join ", " (body_strs b) ++ END_SIGN)%string.

(** [HornClause.__repr__]: returns the text; the clause is not touched. *)
Definition HornClause___repr__ (c : HornClause) : exc string :=
  format_horn_clause (head c) (body c).

(** ** Term types *)

(** [number] is [True], [False] or [None]. *)
Record TermType : Type := mkTermType {
  variable : bool;
  number : option bool
}.

(** [a or b] on values that are [True], [False] or [None]: [a] when it is
    true, else [b]. *)
Definition py_or (a b : option bool) : option bool :=
  match a with
  | Some true => a
  | _ => b
  end.

Definition option_bool_eqb (a b : option bool) : bool :=
  match a, b with
  | Some x, Some y => Bool.eqb x y
  | None, None => true
  | _, _ => false
  end.

(** [TermType.__eq__] *)
Definition TermType___eq__ (self other : TermType) : bool :=
  Bool.eqb (variable self) (variable other)
  && option_bool_eqb (number self) (number other).

(** [TermType.is_compatible] *)
Definition is_compatible (self other : TermType) : bool :=
  match number self, number other with
  | None, _ => true
  | _, None => true
  | Some a, Some b => Bool.eqb a b
  end.

(** [TermType.update_type]; [None] is the result [None]. *)
Definition update_type (self other : TermType) : option TermType :=
  if negb (is_compatible self other) then None
  else Some (mkTermType (variable self || variable other)
                        (py_or (number self) (number other))).

(** [==] between two results of [update_type]. *)
Definition update_result_eqb (a b : option TermType) : bool :=
  match a, b with
  | Some x, Some y => TermType___eq__ x y
  | None, None => true
  | _, _ => false
  end.

(** ** Structural algorithms *)

(** A [dict] with terms as keys, in insertion order.  Python finds a key
    by its hash and then [==]; equal terms have equal hashes (shown below),
    so the entry found is the first whose key equals the key sought. *)
Definition dict (V : Type) : Type := list (term * V).

Fixpoint dict_get {V : Type} (d : dict V) (k : term) : option V :=
  match d with
  | [] => None
  | (k', v) :: rest => if Term___eq__ k' k then Some v else dict_get rest k
  end.

Fixpoint dict_set {V : Type} (d : dict V) (k : term) (v : V) : dict V :=
  match d with
  | [] => [(k, v)]
  | (k', v') :: rest =>
      if Term___eq__ k' k then (k', v) :: rest else (k', v') :: dict_set rest k v
  end.

Definition list_index {A : Type} (l : list A) (i : nat) : exc A :=
  match nth_error l i with
  | Some x => Ok x
  | None => Raise IndexError
  end.

(** ["X{}".format(i)] *)
Definition position_name (i : nat) : string := "X" ++ Py.str_nat i.

(** [range(n)] *)
Definition range (n : Z) : list nat := seq 0 (Z.to_nat n).

(** [get_variable_atom(value)]; the value is a predicate, an atom or a
    literal. *)
Definition get_variable_atom (value : Predicate + atomic) : exc atomic :=
  let pred := match value with
              | inl p => p
              | inr x => predicate (as_atom x)
              end in
  let ts := map (fun i => ArgTerm (Variable_ (position_name i))) (range (arity pred)) in
  variable_atom <- Atom_init (inl pred) ts Py.float_one None ;;
  match value with
  | inr (ALiteral l) =>
      lit <- Literal_init variable_atom (negated l) ;;
      Ok (ALiteral lit)
  | _ => Ok (AnAtom variable_atom)
  end.

(** The loop of [get_renamed_atom]: the arguments appended to [terms] for
    the rest of the atom's terms, from the current [index] and [term_map]. *)
Fixpoint renamed_arguments (ts : list term) (index : nat) (term_map : dict string)
    : list argument :=
  match ts with
  | [] => []
  | t :: rest =>
      if is_constant t then
        match t with
        | Quote v _ _ => ArgTerm (Constant v) :: renamed_arguments rest index term_map
        | _ => ArgTerm t :: renamed_arguments rest index term_map
        end
      else
        match dict_get term_map t with
        | None =>
            let x := position_name index in
            ArgStr x :: renamed_arguments rest (S index) (dict_set term_map t x)
        | Some x => ArgStr x :: renamed_arguments rest index term_map
        end
  end.

(** [get_renamed_atom(atom)] *)
Definition get_renamed_atom (a : Atom) : exc Atom :=
  Atom_init (inl (predicate a)) (renamed_arguments (terms a) 0 [])
            Py.float_one None.

(** [get_renamed_literal(literal)] *)
Definition get_renamed_literal (x : atomic) : exc Literal :=
  renamed_atom <- get_renamed_atom (as_atom x) ;;
  Literal_init renamed_atom
    match x with
    | ALiteral l => negated l
    | AnAtom _ => false
    end.

(** The loop of [get_substitution] over the remaining positions. *)
Fixpoint substitution_loop (generic_atom specific_atom : Atom) (positions : list nat)
    (substitutions : dict term) : exc (option (dict term)) :=
  match positions with
  | [] => Ok (Some substitutions)
  | i :: rest =>
      generic_term <- list_index (terms generic_atom) i ;;
      specific_term <- list_index (terms specific_atom) i ;;
      if is_constant generic_term && Term___ne__ generic_term specific_term
      then Ok None
      else
        match dict_get substitutions generic_term with
        | None =>
            substitution_loop generic_atom specific_atom rest
              (dict_set substitutions generic_term specific_term)
        | Some substitution =>
            if Term___ne__ substitution specific_term then Ok None
            else substitution_loop generic_atom specific_atom rest substitutions
        end
  end.

(** [get_substitution(generic_atom, specific_atom)]: [Ok None] is the
    result [None], [Ok (Some d)] a dictionary. *)
Definition get_substitution (generic_atom specific_atom : Atom)
    : exc (option (dict term)) :=
  if Predicate_ne (predicate generic_atom) (predicate specific_atom)
  then Ok None
  else substitution_loop generic_atom specific_atom
         (range (Atom_arity generic_atom)) [].

(** [get_variable_indices(atom)] *)
Definition get_variable_indices (a : Atom) : exc (list nat) :=
  (fix loop (positions : list nat) : exc (list nat) :=
     match positions with
     | [] => Ok []
     | i :: rest =>
         t <- list_index (terms a) i ;;
         indexes <- loop rest ;;
         Ok (if negb (is_constant t) then i :: indexes else indexes)
     end) (range (Atom_arity a)).

(** *** Hashing *)

(** The built-in [hash] on strings, numbers and tuples.  Python fixes it up
    to these facts: the hash of a number depends on its value only
    ([hash(1) == hash(1.0)], and a bool hashes as 0 or 1), and the hash of a
    tuple is computed from the hashes of its items, in order. *)
Class BuiltinHash : Type := {
  hash_str : string -> Z;
  hash_num : Q -> Z;
  hash_tuple : list Z -> Z;
  hash_num_value : forall p q : Q, Qeq p q -> hash_num p = hash_num q
}.

Section Hashing.

Context {builtin : BuiltinHash}.

Definition hash_kval (k : kval) : Z :=
  match k with
  | KStr s => hash_str s
  | KNum n => hash_num (Py.num_value n)
  end.

(** [Term.__hash__]: [hash(self.key())] *)
Definition Term___hash__ (t : term) : Z :=
  hash_tuple (map hash_kval (term_key t)).

(** [Predicate.__hash__]: the hash of [(name, arity)] *)
Definition Predicate___hash__ (p : Predicate) : Z :=
  hash_tuple [hash_str (name p); hash_num (inject_Z (arity p))].

Definition hash_pyval (v : pyval) : Z :=
  match v with
  | VNum n => hash_num (Py.num_value n)
  | VBool b => hash_num (Py.num_value (Py.of_bool b))
  | VPred p => Predicate___hash__ p
  | VTerms ts => hash_tuple (map Term___hash__ ts)
  end.

(** [Clause.__hash__]: [hash(self.key())] *)
Definition Clause___hash__ (c : clause) : Z :=
  hash_tuple (map hash_pyval (Clause_key c)).

End Hashing.

(** ** Notions used to state the properties *)

(** An atom as its constructor leaves it: as many terms as the arity of its
    predicate. *)
Definition well_formed (a : Atom) : bool :=
  arity (predicate a) =? Z.of_nat (List.length (terms a)).

(** The atom [a] with another weight. *)
Definition with_weight (a : Atom) (w : Py.number) : Atom :=
  mkAtom (predicate a) (terms a) w (provenance a).

(** The atom [a] with another provenance. *)
Definition with_provenance (a : Atom) (p : option ClauseProvenance) : Atom :=
  mkAtom (predicate a) (terms a) (weight a) p.

(** The variable [Xi] of [get_variable_atom]. *)
Definition position_variable (i : nat) : term := Variable_ (position_name i).

(** Every key of the dictionary is a positional variable below [k]. *)
Definition keys_below (k : nat) (d : dict term) : Prop :=
  Forall (fun kv => exists j, (j < k)%nat /\ fst kv = position_variable j) d.

(** The position of the first element of [seen] equal ([==]) to [t]. *)
Fixpoint index_of (seen : list term) (t : term) : option nat :=
  match seen with
  | [] => None
  | s :: rest =>
      if Term___eq__ s t then Some 0%nat else option_map S (index_of rest t)
  end.

(** A constant term as the canonical atom keeps it. *)
Definition kept_constant (t : term) : term :=
  match t with
  | Quote v _ _ => Constant v
  | _ => t
  end.

(** Canonical renaming as the specification words it: a constant term is
    kept (a constant quote becomes a bare constant of its text); a
    non-constant term is replaced by the variable [Xk] where [k] is its rank
    among the distinct non-constant terms in order of first occurrence
    ([seen] lists those met so far). *)
Fixpoint canonical_terms (seen : list term) (ts : list term) : list term :=
  match ts with
  | [] => []
  | t :: rest =>
      if is_constant t then kept_constant t :: canonical_terms seen rest
      else
        match index_of seen t with
        | Some k => Variable_ (position_name k) :: canonical_terms seen rest
        | None =>
            Variable_ (position_name (List.length seen))
              :: canonical_terms (seen ++ [t]) rest
        end
  end.

(** The counter and the dictionary of the loop stand for the list of the
    non-constant terms met so far. *)
Definition represents (seen : list term) (index : nat) (term_map : dict string)
    : Prop :=
  index = List.length seen
  /\ forall t, dict_get term_map t = option_map position_name (index_of seen t).

(** Two term sequences that are identical except for the names of their
    variables: the same length; at each position both terms are constant
    and equal, or both are not constant; and two positions hold the same
    non-constant term in one sequence exactly when they do in the other. *)
Definition same_pattern (ts1 ts2 : list term) : bool :=
  let pairs := combine ts1 ts2 in
  (List.length ts1 =? List.length ts2)%nat
  && forallb (fun '(t1, t2) =>
                Bool.eqb (is_constant t1) (is_constant t2)
                && implb (is_constant t1) (Term___eq__ t1 t2)) pairs
  && forallb (fun '(x1, x2) =>
                forallb (fun '(y1, y2) =>
                           is_constant x1 || is_constant y1
                           || Bool.eqb (Term___eq__ x1 y1) (Term___eq__ x2 y2))
                        pairs) pairs.

Definition same_shape (a1 a2 : Atom) : bool :=
  Predicate_eq (predicate a1) (predicate a2)
  && same_pattern (terms a1) (terms a2).

(** A clause with every provenance in it forgotten. *)
Definition erase_atom (a : Atom) : Atom := with_provenance a None.

Definition erase_literal (l : Literal) : Literal :=
  mkLiteral (erase_atom (literal_atom l)) (negated l).

Definition erase_atomic (x : atomic) : atomic :=
  match x with
  | AnAtom a => AnAtom (erase_atom a)
  | ALiteral l => ALiteral (erase_literal l)
  end.

Definition erase_provenance (c : clause) : clause :=
  match c with
  | OfAtom a => OfAtom (erase_atom a)
  | OfLiteral l => OfLiteral (erase_literal l)
  | OfAtomClause c => OfAtomClause (mkAtomClause (erase_atom (atom c)) None)
  | OfHornClause c =>
      OfHornClause (mkHornClause (erase_atomic (head c))
                                 (map erase_literal (body c)) None)
  end.

(** ** Examples *)

Module Examples.

(** A hash that satisfies what Python promises of its own. *)
Definition example_hash : BuiltinHash := {|
  hash_str := fun s => Z.of_nat (String.length s);
  hash_num := fun q => Qnum (Qred q);
  hash_tuple := fold_right Z.add 0;
  hash_num_value := fun p q H => f_equal Qnum (Qred_complete p q H)
|}.

Definition parent : Predicate := Predicate_init "parent" 2.
Definition p3 : Predicate := Predicate_init "p" 3.

Definition kb_line_3 : option ClauseProvenance :=
  Some (FileDefinedClause 3 "family.pl").

(** [0.8::parent(ann, Who)], read from a file. *)
Definition parent_ann_who : Atom :=
  mkAtom parent [Constant "ann"; Variable_ "Who"] (Py.mkNumber (4 # 5) "0.8")
         kb_line_3.

(** [parent(ann, X0)] *)
Definition parent_ann_x0 : Atom :=
  mkAtom parent [Constant "ann"; Variable_ "X0"] Py.float_one None.

(** [0.5::p(B, 'k', B)] and [p(Y, k, Y)] *)
Definition p_B_k_B : Atom :=
  mkAtom p3 [Variable_ "B"; Quote "k" false "'"; Variable_ "B"]
         (Py.mkNumber (1 # 2) "0.5") None.

Definition p_Y_k_Y : Atom :=
  mkAtom p3 [Variable_ "Y"; Constant "k"; Variable_ "Y"] Py.float_one None.

(** [parent(ann, bob)] with the integer weight 1, read from a file, and
    [parent('ann', bob)] with the weight 1.0 and no provenance. *)
Definition parent_ann_bob : Atom :=
  mkAtom parent [Constant "ann"; Constant "bob"] (Py.of_int 1) kb_line_3.

Definition parent_quoted_ann_bob : Atom :=
  mkAtom parent [Quote "ann" false "'"; Constant "bob"] Py.float_one None.

(** [parent(ann, bob) :- parent(ann, bob).] with and without provenances. *)
Definition rule_from_file : HornClause :=
  mkHornClause (AnAtom parent_ann_bob)
               [mkLiteral (with_weight parent_ann_bob Py.float_one) false]
               kb_line_3.

Definition rule_built : HornClause :=
  mkHornClause (AnAtom (with_provenance parent_ann_bob None))
               [mkLiteral (mkAtom parent [Constant "ann"; Constant "bob"]
                                  Py.float_one None) false]
               None.

End Examples.

(** ** Further operations of the classes *)

From Stdlib Require Import Sorted.

Definition isinstance_Number (t : term) : bool :=
  match t with Number _ => true | _ => false end.

Definition isinstance_Variable (t : term) : bool :=
  match t with Variable_ _ => true | _ => false end.

Definition isinstance_Quote (t : term) : bool :=
  match t with Quote _ _ _ => true | _ => false end.

(** An item of [Atom.simple_key]: [None] stands for a number and for a
    term that is not constant. *)
Definition simple_term (x : term) : option term :=
  if isinstance_Number x || negb (is_constant x) then None else Some x.

(** [Atom.simple_key] and [AtomClause.simple_key] *)
Definition Atom_simple_key (a : Atom) : Predicate * list (option term) :=
  (predicate a, map simple_term (terms a)).

Definition AtomClause_simple_key (c : AtomClause)
    : Predicate * list (option term) :=
  Atom_simple_key (atom c).

(** [==] between items of simple keys: [None] equals [None] only. *)
Definition simple_term_eqb (a b : option term) : bool :=
  match a, b with
  | None, None => true
  | Some x, Some y => Term___eq__ x y
  | _, _ => false
  end.

Definition simple_key_eqb (k1 k2 : Predicate * list (option term)) : bool :=
  Predicate_eq (fst k1) (fst k2) && tuple_eqb simple_term_eqb (snd k1) (snd k2).

(** [AtomClause.is_template] and [AtomClause.is_grounded] *)
Definition AtomClause_is_template (c : AtomClause) : bool :=
  Atom_is_template (atom c).

Definition AtomClause_is_grounded (c : AtomClause) : bool :=
  is_grounded (atom c).

(** [l[i]] for an integer [i]: a negative index counts from the end. *)
Definition py_getitem {A : Type} (l : list A) (i : Z) : exc A :=
  let j := if i <? 0 then i + Z.of_nat (List.length l) else i in
  if j <? 0 then Raise IndexError else list_index l (Z.to_nat j).

(** [HornClause.__getitem__] *)
Definition HornClause___getitem__ (c : HornClause) (item : Z) : exc atomic :=
  if item =? 0 then Ok (head c)
  else l <- py_getitem (body c) (item - 1) ;; Ok (ALiteral l).


(** ** Notions used to state the further properties *)

(** A string is made of a prefix, an opening brace, a non-empty name of
    letters, digits, underscores and hyphens, a closing brace and a
    suffix: what the pattern [PLACE_HOLDER] describes. *)
Definition all_name_chars (s : string) : bool :=
  forallb PlaceHolder.is_name_char (list_ascii_of_string s).

Definition has_place_holder (s : string) : Prop :=
  exists pre nm post : string,
    s = (pre ++ "{" ++ nm ++ "}" ++ post)%string
    /\ nm <> EmptyString /\ all_name_chars nm = true.

(** The positions of the non-constant terms of a list, counted from
    [from]. *)
Fixpoint variable_positions (from : nat) (ts : list term) : list nat :=
  match ts with
  | [] => []
  | t :: rest =>
      if negb (is_constant t) then from :: variable_positions (S from) rest
      else variable_positions (S from) rest
  end.

(** A term none of whose key items is a number. *)
Definition string_keyed (t : term) : bool := negb (isinstance_Number t).

(** Two terms that [simple_key] does not tell apart: both are wildcards
    (numbers or non-constant terms), or none is and they are equal. *)
Definition simple_alike (x y : term) : bool :=
  match simple_term x, simple_term y with
  | None, None => true
  | Some _, Some _ => Term___eq__ x y
  | _, _ => false
  end.

(** An atom or a literal seen as a clause. *)
Definition of_atomic (x : atomic) : clause :=
  match x with
  | AnAtom a => OfAtom a
  | ALiteral l => OfLiteral l
  end.

(** Two terms that differ at most by the value of a number or by being
    two non-constant terms. *)
Definition same_up_to_values (x y : term) : Prop :=
  (isinstance_Number x = true /\ isinstance_Number y = true)
  \/ (is_constant x = false /\ is_constant y = false)
  \/ x = y.

Definition isinstance_ListTerms (t : term) : bool :=
  match t with ListTerms _ => true | _ => false end.

(** [Term.get_name]: the value, or its text for a number. *)
Definition get_name (t : term) : string :=
  match term_value t with
  | KStr s => s
  | KNum n => Py.num_str n
  end.

(** How the dictionary of [get_substitution] stands while a renamed atom
    is matched against the atom it was renamed from: each positional
    variable already given out is bound to the term it replaced first, and
    every other entry binds a term that is no variable to an equal term. *)
Definition binds_seen (seen : list term) (d : dict term) : Prop :=
  (forall j sj, nth_error seen j = Some sj ->
                dict_get d (position_variable j) = Some sj)
  /\ (forall k v, In (k, v) d ->
        (exists j, (j < List.length seen)%nat /\ k = position_variable j)
        \/ (isinstance_Variable k = false /\ Term___eq__ k v = true)).

(** * Properties *)

(** ** Basic facts about the built-in values *)

Lemma num_eqb_refl (n : Py.number) : Py.num_eqb n n = true.
Proof. unfold Py.num_eqb. apply Qeq_bool_iff. reflexivity. Qed.

Lemma kval_eqb_refl (k : kval) : kval_eqb k k = true.
Proof. destruct k; simpl; [apply String.eqb_refl | apply num_eqb_refl]. Qed.

Lemma tuple_eqb_refl {A : Type} (eqb : A -> A -> bool) :
  (forall a, eqb a a = true) -> forall l, tuple_eqb eqb l l = true.
Proof.
  intros Hrefl l. induction l as [|a l IH]; simpl.
  - reflexivity.
  - now rewrite Hrefl, IH.
Qed.

Lemma Term___eq___refl (t : term) : Term___eq__ t t = true.
Proof. unfold Term___eq__. apply tuple_eqb_refl, kval_eqb_refl. Qed.

Lemma Predicate_eq_spec (v w : Predicate) :
  Predicate_eq v w = true <->
  name v = name w /\ arity v = arity w
  /\ Predicate_is_template v = Predicate_is_template w.
Proof.
  unfold Predicate_eq, Predicate___eq__, Predicate_isinstance.
  destruct (Predicate_is_template v), (Predicate_is_template w); simpl;
    rewrite ?andb_true_iff, ?String.eqb_eq, ?Z.eqb_eq;
    intuition (congruence || discriminate).
Qed.

Lemma Predicate_eq_refl (p : Predicate) : Predicate_eq p p = true.
Proof. apply Predicate_eq_spec. auto. Qed.

Lemma Predicate_ne_refl (p : Predicate) : Predicate_ne p p = false.
Proof. unfold Predicate_ne. now rewrite Predicate_eq_refl. Qed.

Lemma build_terms_of_terms (ts : list term) :
  build_terms (map ArgTerm ts) = Ok ts.
Proof.
  induction ts as [|t ts IH]; simpl.
  - reflexivity.
  - now rewrite IH.
Qed.

(** ** List terms *)

Lemma existsb_is_template_false (items : list term) :
  existsb is_template items = false <->
  (forall t, In t items -> is_template t = false).
Proof.
  split.
  - intros H t Hin. destruct (is_template t) eqn:E; [|reflexivity].
    assert (existsb is_template items = true) by (apply existsb_exists; eauto).
    congruence.
  - intros H. destruct (existsb is_template items) eqn:E; [|reflexivity].
    apply existsb_exists in E as (t & Hin & Ht). rewrite (H t Hin) in Ht.
    discriminate.
Qed.

(** C3, as the code has it: a list of terms always answers [True] to
    [is_constant()]; it is a template exactly when one of its items is; so
    [is_constant()] is the negation of [is_template()] exactly when no item
    is a template. *)
Theorem ListTerms_is_constant_always (items : list term) :
  is_constant (ListTerms items) = true
  /\ (is_template (ListTerms items) = true <->
      exists t, In t items /\ is_template t = true)
  /\ (is_constant (ListTerms items) = negb (is_template (ListTerms items)) <->
      forall t, In t items -> is_template t = false).
Proof.
  split; [reflexivity|]. split.
  - simpl. apply existsb_exists.
  - simpl. rewrite <- existsb_is_template_false.
    destruct (existsb is_template items); simpl; intuition congruence.
Qed.

(** C3 as stated fails: a list holding a template is a template and still
    answers [True] to [is_constant()]. *)
Lemma ListTerms_constant_and_template :
  is_constant (ListTerms [TemplateTerm ["{x}"]])
  <> negb (is_template (ListTerms [TemplateTerm ["{x}"]])).
Proof. simpl. discriminate. Qed.

(** ** Term types *)

Lemma update_type_idempotent (t : TermType) :
  update_type t t = Some t.
Proof. destruct t as [v [[|]|]]; destruct v; reflexivity. Qed.

Lemma update_type_incompatible (v1 v2 : bool) :
  update_type (mkTermType v1 (Some true)) (mkTermType v2 (Some false)) = None
  /\ update_type (mkTermType v1 (Some false)) (mkTermType v2 (Some true)) = None.
Proof. split; reflexivity. Qed.

(** Where the merge commutes: everywhere except between an unknown
    [number] and a false one. *)
Lemma update_type_commutes_unless (t1 t2 : TermType) :
  (number t1 = None /\ number t2 = Some false)
  \/ (number t1 = Some false /\ number t2 = None)
  \/ update_type t1 t2 = update_type t2 t1.
Proof.
  destruct t1 as [v1 [[|]|]], t2 as [v2 [[|]|]]; auto;
    right; right; unfold update_type; simpl; now rewrite orb_comm.
Qed.

(** C5 at the failing input: the types (variable = false, number = None)
    and (variable = false, number = false) are compatible in both orders,
    yet merging them gives number = false in one order and number = None in
    the other, two results that are not equal; only the first then rejects
    a type whose number is true.  The merge is idempotent, and a true
    [number] against a false one gives no result. *)
Theorem update_type_not_commutative :
  let t1 := mkTermType false None in
  let t2 := mkTermType false (Some false) in
  let t3 := mkTermType false (Some true) in
  is_compatible t1 t2 = true /\ is_compatible t2 t1 = true
  /\ update_type t1 t2 = Some (mkTermType false (Some false))
  /\ update_type t2 t1 = Some (mkTermType false None)
  /\ update_result_eqb (update_type t1 t2) (update_type t2 t1) = false
  /\ update_type (mkTermType false (Some false)) t3 = None
  /\ update_type (mkTermType false None) t3 = Some t3
  /\ (forall t, update_type t t = Some t)
  /\ (forall v1 v2,
        update_type (mkTermType v1 (Some true)) (mkTermType v2 (Some false)) = None
        /\ update_type (mkTermType v1 (Some false)) (mkTermType v2 (Some true)) = None).
Proof.
  repeat split; try reflexivity.
  apply update_type_idempotent.
Qed.

(** ** Ordering of terms *)

(** [__lt__] does compare first the lengths of the keys and then the
    keys. *)
Lemma Term___lt___length_first (a b : term) :
  Term___lt__ a b = spec_term_compare Py.OpLt a b.
Proof. destruct a, b; reflexivity. Qed.

(** The other three operators agree with the length-first ordering between
    two terms whose keys have the same length. *)
Lemma term_compare_same_length (op : Py.cmp_op) (a b : term) :
  List.length (term_key a) = List.length (term_key b) ->
  term_compare op a b = spec_term_compare op a b.
Proof.
  intros Hlen. destruct op; simpl; try apply Term___lt___length_first;
    unfold Term___le__, Term___gt__, Term___ge__, spec_term_compare;
    rewrite Hlen, Nat.eqb_refl; reflexivity.
Qed.

(** C6 at the failing input: the key of [Variable("A")] has two items, the
    key of [Constant("z")] one.  By length first the variable is the
    greater, but [>], [>=] and [<=] compare the keys alone, where "type" is
    below "z"; so the constant is both less than ([<]) and greater than
    ([>]) the variable.  Against a number, [>] even raises TypeError where
    the lengths decide.  Only [<] is the length-first ordering. *)
Theorem term_ordering_ignores_key_length :
  let a := Variable_ "A" in
  let b := Constant "z" in
  Term___gt__ a b = Ok false /\ spec_term_compare Py.OpGt a b = Ok true
  /\ Term___ge__ a b = Ok false /\ spec_term_compare Py.OpGe a b = Ok true
  /\ Term___le__ a b = Ok true /\ spec_term_compare Py.OpLe a b = Ok false
  /\ Term___lt__ b a = Ok true /\ Term___gt__ b a = Ok true
  /\ Term___gt__ a (Number (Py.of_int 3)) = Raise TypeError
  /\ spec_term_compare Py.OpGt a (Number (Py.of_int 3)) = Ok true
  /\ (forall x y, Term___lt__ x y = spec_term_compare Py.OpLt x y).
Proof.
  repeat split; try reflexivity.
  apply Term___lt___length_first.
Qed.

(** ** Rendering of Horn clauses *)

Lemma append_inj_l (p s1 s2 : string) :
  (p ++ s1)%string = (p ++ s2)%string -> s1 = s2.
Proof.
  induction p as [|c p IH]; simpl; intros H.
  - exact H.
  - injection H as H. auto.
Qed.

Lemma format_horn_clause_empty_body (h : atomic) :
  format_horn_clause h [] = Ok (atomic_str h ++ " :- .")%string.
Proof. reflexivity. Qed.

(** C4 at the failing input: the clause with head [fact(a)] and no body
    renders as ["fact(a) :- ."], not ["fact(a) :- true."].  The literal
    [true] is built, but it is iterated over in place of the body, and it
    has no terms.  This holds of every head. *)
Theorem empty_body_renders_without_true :
  let fact_a := AnAtom (mkAtom (Predicate_init "fact" 1) [Constant "a"]
                               Py.float_one None) in
  HornClause___repr__ (HornClause_init fact_a [] None) = Ok "fact(a) :- ."
  /\ (forall h prov,
        HornClause___repr__ (HornClause_init h [] prov)
        = Ok (atomic_str h ++ " :- .")%string
        /\ HornClause___repr__ (HornClause_init h [] prov)
           <> Ok (atomic_str h ++ " :- true.")%string).
Proof.
  split; [reflexivity|]. intros h prov. split.
  - apply format_horn_clause_empty_body.
  - unfold HornClause___repr__, HornClause_init; simpl body; simpl head.
    rewrite format_horn_clause_empty_body. intros H. injection H as H.
    apply append_inj_l in H. discriminate.
Qed.

(** ** Construction of atoms *)

Lemma Atom_init_well_formed (pred : Predicate + string) (args : list argument)
    (w : Py.number) (prov : option ClauseProvenance) (a : Atom) :
  Atom_init pred args w prov = Ok a -> well_formed a = true.
Proof.
  unfold Atom_init, well_formed.
  assert (Hlen : forall l ts, build_terms l = Ok ts -> List.length ts = List.length l).
  { induction l as [|x l IH]; simpl; intros ts H.
    - now inversion H.
    - destruct (match x with
                | ArgTerm t => Ok t
                | ArgStr s => get_term_from_string s
                | ArgNum n => Ok (Number n)
                | ArgOther => Raise TermMalformedException
                end); simpl in H; [|discriminate].
      destruct (build_terms l) as [ts'|]; simpl in H; [|discriminate].
      inversion H; subst. simpl. now rewrite (IH ts'). }
  destruct pred as [p|nm]; simpl.
  - destruct (arity p =? Z.of_nat (List.length args)) eqn:E; simpl; [|discriminate].
    destruct (build_terms args) as [ts|] eqn:B; simpl; [|discriminate].
    intros H; inversion H; subst; simpl.
    rewrite (Hlen _ _ B). exact E.
  - destruct (build_terms args) as [ts|] eqn:B; simpl; [|discriminate].
    intros H; inversion H; subst; simpl.
    rewrite (Hlen _ _ B). apply Z.eqb_refl.
Qed.

Lemma Atom_init_terms (p : Predicate) (ts : list term) (w : Py.number)
    (prov : option ClauseProvenance) :
  arity p = Z.of_nat (List.length ts) ->
  Atom_init (inl p) (map ArgTerm ts) w prov = Ok (mkAtom p ts w prov).
Proof.
  intros H. unfold Atom_init. rewrite length_map, H, Z.eqb_refl. simpl.
  now rewrite build_terms_of_terms.
Qed.

(** C8: with a predicate of arity [n], an atom over [n] terms is built, and
    it is the atom of that predicate over those terms; over any number [m]
    of arguments other than [n] the constructor raises the atom-malformed
    exception with expected [n] and found [m]. *)
Theorem Atom_init_checks_arity (p : Predicate) (w : Py.number)
    (prov : option ClauseProvenance) :
  (forall ts : list term,
     arity p = Z.of_nat (List.length ts) ->
     Atom_init (inl p) (map ArgTerm ts) w prov = Ok (mkAtom p ts w prov))
  /\ (forall args : list argument,
        arity p <> Z.of_nat (List.length args) ->
        Atom_init (inl p) args w prov
        = Raise (AtomMalformedException (arity p) (Z.of_nat (List.length args)))).
Proof.
  split.
  - intros ts H. now apply Atom_init_terms.
  - intros args H. unfold Atom_init.
    apply Z.eqb_neq in H. now rewrite H.
Qed.

Lemma Atom_init_checks_arity_witness :
  Atom_init (inl (Predicate_init "parent" 2))
            (map ArgTerm [Constant "ann"; Variable_ "X"]) Py.float_one None
  = Ok (mkAtom (Predicate_init "parent" 2) [Constant "ann"; Variable_ "X"]
               Py.float_one None)
  /\ Atom_init (inl (Predicate_init "parent" 2))
               [ArgStr "ann"] Py.float_one None
     = Raise (AtomMalformedException 2 1).
Proof.
  split.
  - apply (proj1 (Atom_init_checks_arity (Predicate_init "parent" 2)
                    Py.float_one None)).
    reflexivity.
  - apply (proj2 (Atom_init_checks_arity (Predicate_init "parent" 2)
                    Py.float_one None) [ArgStr "ann"]).
    simpl. lia.
Defined.

(** ** Positional variable names *)

Lemma position_name_inj (i j : nat) :
  position_name i = position_name j -> i = j.
Proof.
  unfold position_name, Py.str_nat. simpl. intros H. injection H as H.
  apply DecimalNat.Unsigned.to_uint_inj.
  assert (E : Some (Nat.to_uint i) = Some (Nat.to_uint j)).
  { rewrite <- (NilEmpty.usu (Nat.to_uint i)), <- (NilEmpty.usu (Nat.to_uint j)).
    now rewrite H. }
  now injection E.
Qed.

Lemma Variable_eq_names (x y : string) :
  Term___eq__ (Variable_ x) (Variable_ y) = String.eqb x y.
Proof. unfold Term___eq__. simpl. now rewrite andb_true_r. Qed.

Lemma position_variable_eq (i j : nat) :
  Term___eq__ (Variable_ (position_name i)) (Variable_ (position_name j))
  = (i =? j)%nat.
Proof.
  rewrite Variable_eq_names.
  destruct (Nat.eqb_spec i j) as [->|Hne].
  - apply String.eqb_refl.
  - apply String.eqb_neq. intros H. now apply position_name_inj in H.
Qed.

Lemma get_term_from_position_name (i : nat) :
  get_term_from_string (position_name i) = Ok (Variable_ (position_name i)).
Proof. reflexivity. Qed.

(** ** Dictionaries *)

Lemma dict_set_absent {V : Type} (d : dict V) (k : term) (v : V) :
  dict_get d k = None -> dict_set d k v = d ++ [(k, v)].
Proof.
  induction d as [|[k' v'] d IH]; simpl; intros H.
  - reflexivity.
  - destruct (Term___eq__ k' k); [discriminate|]. now rewrite IH.
Qed.

Lemma dict_get_app {V : Type} (d1 d2 : dict V) (k : term) :
  dict_get (d1 ++ d2) k
  = match dict_get d1 k with
    | Some v => Some v
    | None => dict_get d2 k
    end.
Proof.
  induction d1 as [|[k' v'] d1 IH]; simpl.
  - reflexivity.
  - destruct (Term___eq__ k' k); [reflexivity | apply IH].
Qed.

(** ** Substitutions *)

Lemma keys_below_get (k : nat) (d : dict term) :
  keys_below k d -> dict_get d (position_variable k) = None.
Proof.
  induction 1 as [|[key v] d (j & Hj & Hkey) _ IH]; simpl.
  - reflexivity.
  - simpl in Hkey. subst key. unfold position_variable. rewrite position_variable_eq.
    destruct (Nat.eqb_spec j k); [lia | exact IH].
Qed.

Lemma keys_below_extend (k : nat) (d : dict term) (t : term) :
  keys_below k d -> keys_below (S k) (d ++ [(position_variable k, t)]).
Proof.
  intros H. apply Forall_app. split.
  - eapply Forall_impl; [|exact H]. intros kv (j & Hj & E). exists j. split; [lia | exact E].
  - constructor; [|constructor]. exists k. split; [lia | reflexivity].
Qed.

(** The loop of [get_substitution] when the generic terms still to visit
    are the positional variables from [k] on: each gets bound to the
    specific term at its position. *)
Lemma substitution_loop_variables (g s : Atom) (m : nat) :
  forall (k : nat) (gpre spre srest : list term) (d : dict term),
    terms g = gpre ++ map position_variable (seq k m) ->
    terms s = spre ++ srest ->
    List.length gpre = k -> List.length spre = k -> List.length srest = m ->
    keys_below k d ->
    substitution_loop g s (seq k m) d
    = Ok (Some (d ++ combine (map position_variable (seq k m)) srest)).
Proof.
  induction m as [|m IH]; intros k gpre spre srest d Hg Hs Lg Ls Lr Hd.
  - simpl. now rewrite app_nil_r.
  - destruct srest as [|t srest]; [discriminate|].
    simpl in Lr. injection Lr as Lr. simpl seq in *. simpl map in *.
    simpl substitution_loop. unfold list_index.
    rewrite Hg, Hs, !nth_error_app2 by lia.
    rewrite Lg, Ls, Nat.sub_diag. simpl.
    rewrite (keys_below_get k d Hd).
    rewrite (dict_set_absent d (position_variable k) t (keys_below_get k d Hd)).
    rewrite (IH (S k) (gpre ++ [position_variable k]) (spre ++ [t]) srest (d ++ [(position_variable k, t)])).
    + now rewrite <- app_assoc.
    + now rewrite <- app_assoc.
    + now rewrite <- app_assoc.
    + rewrite length_app. simpl. lia.
    + rewrite length_app. simpl. lia.
    + exact Lr.
    + now apply keys_below_extend.
Qed.

Lemma get_variable_atom_of_predicate (p : Predicate) :
  0 <= arity p ->
  get_variable_atom (inl p)
  = Ok (AnAtom (mkAtom p (map position_variable (range (arity p))) Py.float_one None)).
Proof.
  intros H. unfold get_variable_atom.
  rewrite <- (map_map (fun i => Variable_ (position_name i)) ArgTerm).
  rewrite Atom_init_terms; [reflexivity|].
  unfold range. rewrite length_map, length_seq. lia.
Qed.

(** Asking for the variable atom of an atom is asking for that of its
    predicate. *)
Lemma get_variable_atom_of_atom (a : Atom) :
  get_variable_atom (inr (AnAtom a)) = get_variable_atom (inl (predicate a)).
Proof. reflexivity. Qed.

(** The variable atom of the predicate of a well-formed atom [s] unifies
    with [s]; the substitution binds its variables to the terms of [s], in
    order. *)
Lemma get_substitution_variable_atom (s : Atom) :
  well_formed s = true ->
  exists g,
    get_variable_atom (inl (predicate s)) = Ok (AnAtom g)
    /\ predicate g = predicate s
    /\ get_substitution g s = Ok (Some (combine (terms g) (terms s))).
Proof.
  unfold well_formed. intros W. apply Z.eqb_eq in W.
  eexists. split; [apply get_variable_atom_of_predicate; lia|].
  split; [reflexivity|].
  unfold get_substitution, Atom_arity. simpl predicate. simpl terms.
  rewrite Predicate_ne_refl. unfold range.
  rewrite (substitution_loop_variables _ s _ 0%nat [] [] (terms s) []);
    try reflexivity.
  - rewrite W. symmetry. apply Nat2Z.id.
  - constructor.
Qed.

(** An atom whose two terms are the same non-constant term unifies with
    [p(a, b)] exactly when [a == b], binding that term to [a]. *)
Lemma get_substitution_repeated (p : Predicate) (x a b : term)
    (w1 w2 : Py.number) (pr1 pr2 : option ClauseProvenance) :
  arity p = 2 -> is_constant x = false ->
  get_substitution (mkAtom p [x; x] w1 pr1) (mkAtom p [a; b] w2 pr2)
  = Ok (if Term___eq__ a b then Some [(x, a)] else None).
Proof.
  intros Hp Hx. unfold get_substitution, Atom_arity. simpl predicate.
  rewrite Predicate_ne_refl, Hp. simpl. rewrite Hx. simpl.
  rewrite Term___eq___refl. unfold Term___ne__.
  now destruct (Term___eq__ a b).
Qed.

(** *** Equality of terms is an equivalence *)

Lemma num_eqb_sym (a b : Py.number) : Py.num_eqb a b = Py.num_eqb b a.
Proof. unfold Py.num_eqb, Qeq_bool. apply Z.eqb_sym. Qed.

Lemma num_eqb_trans (a b c : Py.number) :
  Py.num_eqb a b = true -> Py.num_eqb b c = true -> Py.num_eqb a c = true.
Proof.
  unfold Py.num_eqb. rewrite !Qeq_bool_iff. intros H1 H2.
  now rewrite H1.
Qed.

Lemma kval_eqb_sym (a b : kval) : kval_eqb a b = kval_eqb b a.
Proof.
  destruct a, b; simpl; auto using String.eqb_sym, num_eqb_sym.
Qed.

Lemma kval_eqb_trans (a b c : kval) :
  kval_eqb a b = true -> kval_eqb b c = true -> kval_eqb a c = true.
Proof.
  destruct a, b, c; simpl; try discriminate.
  - rewrite !String.eqb_eq. congruence.
  - apply num_eqb_trans.
Qed.

Lemma tuple_eqb_sym {A : Type} (eqb : A -> A -> bool) :
  (forall a b, eqb a b = eqb b a) ->
  forall l1 l2, tuple_eqb eqb l1 l2 = tuple_eqb eqb l2 l1.
Proof.
  intros Hs l1. induction l1 as [|a l1 IH]; intros [|b l2]; simpl; auto.
  now rewrite Hs, IH.
Qed.

Lemma tuple_eqb_trans {A : Type} (eqb : A -> A -> bool) :
  (forall a b c, eqb a b = true -> eqb b c = true -> eqb a c = true) ->
  forall l1 l2 l3,
    tuple_eqb eqb l1 l2 = true -> tuple_eqb eqb l2 l3 = true ->
    tuple_eqb eqb l1 l3 = true.
Proof.
  intros Ht l1. induction l1 as [|a l1 IH]; intros [|b l2] [|c l3];
    simpl; try discriminate; auto.
  rewrite !andb_true_iff. intros [H1 H2] [H3 H4]. eauto.
Qed.

Lemma Term___eq___sym (a b : term) : Term___eq__ a b = Term___eq__ b a.
Proof. apply tuple_eqb_sym, kval_eqb_sym. Qed.

Lemma Term___eq___trans (a b c : term) :
  Term___eq__ a b = true -> Term___eq__ b c = true -> Term___eq__ a c = true.
Proof. apply tuple_eqb_trans, kval_eqb_trans. Qed.

(** Equal keys find the same entry. *)
Lemma dict_get_equal_keys {V : Type} (d : dict V) (k1 k2 : term) :
  Term___eq__ k1 k2 = true -> dict_get d k1 = dict_get d k2.
Proof.
  intros E. induction d as [|[k v] d IH]; simpl; [reflexivity|].
  destruct (Term___eq__ k k1) eqn:E1, (Term___eq__ k k2) eqn:E2; auto.
  - rewrite (Term___eq___trans k k1 k2 E1 E) in E2. discriminate.
  - rewrite Term___eq___sym in E.
    rewrite (Term___eq___trans k k2 k1 E2 E) in E1. discriminate.
Qed.

(** When the loop of [get_substitution] ends with a dictionary, that
    dictionary extends the one it started from, and at every position
    visited it binds the generic term to a term equal to the specific
    one. *)
Lemma substitution_loop_binds (g s : Atom) (positions : list nat) :
  forall d sigma,
    substitution_loop g s positions d = Ok (Some sigma) ->
    (forall k v, dict_get d k = Some v -> dict_get sigma k = Some v)
    /\ (forall i, In i positions ->
          exists gi si v,
            nth_error (terms g) i = Some gi /\ nth_error (terms s) i = Some si
            /\ dict_get sigma gi = Some v /\ Term___eq__ v si = true).
Proof.
  induction positions as [|i rest IH]; intros d sigma H.
  - simpl in H. injection H as <-. split; [auto | intros i []].
  - simpl in H. unfold list_index in H.
    destruct (nth_error (terms g) i) as [gi|] eqn:Gi; simpl in H; [|discriminate].
    destruct (nth_error (terms s) i) as [si|] eqn:Si; simpl in H; [|discriminate].
    destruct (is_constant gi && Term___ne__ gi si); [discriminate|].
    destruct (dict_get d gi) as [v|] eqn:D.
    + destruct (Term___ne__ v si) eqn:N; [discriminate|].
      apply negb_false_iff in N.
      destruct (IH d sigma H) as [Mono Bound]. split; [exact Mono|].
      intros j [<-|Hj]; [|now apply Bound].
      exists gi, si, v. auto.
    + rewrite (dict_set_absent d gi si D) in H.
      destruct (IH _ sigma H) as [Mono Bound].
      assert (Ext : forall k v, dict_get d k = Some v ->
                                dict_get (d ++ [(gi, si)]) k = Some v).
      { intros k v Hk. now rewrite dict_get_app, Hk. }
      split; [auto|].
      intros j [<-|Hj]; [|now apply Bound].
      exists gi, si, si. repeat split; auto using Term___eq___refl.
      apply Mono. rewrite dict_get_app, D. simpl.
      now rewrite Term___eq___refl.
Qed.

(** Whenever [get_substitution] returns a substitution, two positions of
    the generic atom that hold equal terms face equal terms in the specific
    atom. *)
Lemma get_substitution_consistent (g s : Atom) (sigma : dict term)
    (i j : nat) (gi gj si sj : term) :
  get_substitution g s = Ok (Some sigma) ->
  (i < Z.to_nat (Atom_arity g))%nat -> (j < Z.to_nat (Atom_arity g))%nat ->
  nth_error (terms g) i = Some gi -> nth_error (terms g) j = Some gj ->
  nth_error (terms s) i = Some si -> nth_error (terms s) j = Some sj ->
  Term___eq__ gi gj = true -> Term___eq__ si sj = true.
Proof.
  unfold get_substitution. intros H Hi Hj Gi Gj Si Sj E.
  destruct (Predicate_ne (predicate g) (predicate s)); [discriminate|].
  apply substitution_loop_binds in H as [_ Bound].
  assert (Ii : In i (range (Atom_arity g))) by (apply in_seq; lia).
  assert (Ij : In j (range (Atom_arity g))) by (apply in_seq; lia).
  destruct (Bound i Ii) as (gi' & si' & vi & Gi' & Si' & Di & Vi).
  destruct (Bound j Ij) as (gj' & sj' & vj & Gj' & Sj' & Dj & Vj).
  assert (gi' = gi) by congruence. assert (si' = si) by congruence.
  assert (gj' = gj) by congruence. assert (sj' = sj) by congruence.
  subst. rewrite (dict_get_equal_keys sigma gi gj E) in Di.
  assert (vi = vj) by congruence. subst vj.
  rewrite Term___eq___sym in Vi.
  exact (Term___eq___trans si vi sj Vi Vj).
Qed.

(** C1: [get_substitution] returns [None] when the predicates differ; it
    returns a substitution when the generic atom is the variable atom of the
    predicate of a ground specific atom; [p(x, x)], for a non-constant
    term [x], gets no substitution against [p(a, b)] with [a != b] and the
    substitution binding [x] to [a] against [p(a, a)]; and whenever a
    substitution is returned, two positions holding the same generic term
    face equal specific terms. *)
Theorem get_substitution_cases :
  (forall g s : Atom,
     Predicate_ne (predicate g) (predicate s) = true ->
     get_substitution g s = Ok None)
  /\ (forall s : Atom,
        well_formed s = true -> is_grounded s = true ->
        exists g sigma,
          get_variable_atom (inl (predicate s)) = Ok (AnAtom g)
          /\ get_substitution g s = Ok (Some sigma))
  /\ (forall (p : Predicate) (x a b : term),
        arity p = 2 -> is_constant x = false ->
        (Term___ne__ a b = true ->
         get_substitution (mkAtom p [x; x] Py.float_one None)
                          (mkAtom p [a; b] Py.float_one None) = Ok None)
        /\ get_substitution (mkAtom p [x; x] Py.float_one None)
                            (mkAtom p [a; a] Py.float_one None)
           = Ok (Some [(x, a)]))
  /\ (forall (g s : Atom) (sigma : dict term) (i j : nat) (gi gj si sj : term),
        get_substitution g s = Ok (Some sigma) ->
        (i < Z.to_nat (Atom_arity g))%nat -> (j < Z.to_nat (Atom_arity g))%nat ->
        nth_error (terms g) i = Some gi -> nth_error (terms g) j = Some gj ->
        nth_error (terms s) i = Some si -> nth_error (terms s) j = Some sj ->
        Term___eq__ gi gj = true -> Term___eq__ si sj = true).
Proof.
  split; [|split; [|split]].
  - intros g s H. unfold get_substitution. now rewrite H.
  - intros s W _. destruct (get_substitution_variable_atom s W) as (g & Hg & _ & Hs).
    eauto.
  - intros p x a b Hp Hx. split.
    + unfold Term___ne__. intros H. apply negb_true_iff in H.
      rewrite get_substitution_repeated by assumption. now rewrite H.
    + rewrite get_substitution_repeated by assumption.
      now rewrite Term___eq___refl.
  - exact get_substitution_consistent.
Qed.

Lemma get_substitution_cases_witness :
  get_substitution
    (mkAtom (Predicate_init "p" 2) [Variable_ "X"; Variable_ "X"] Py.float_one None)
    (mkAtom (Predicate_init "q" 2) [Constant "a"; Constant "a"] Py.float_one None)
  = Ok None
  /\ (exists g sigma,
        get_variable_atom (inl (Predicate_init "p" 2)) = Ok (AnAtom g)
        /\ get_substitution g
             (mkAtom (Predicate_init "p" 2) [Constant "a"; Constant "b"]
                     Py.float_one None)
           = Ok (Some sigma))
  /\ get_substitution
       (mkAtom (Predicate_init "p" 2) [Variable_ "X"; Variable_ "X"] Py.float_one None)
       (mkAtom (Predicate_init "p" 2) [Constant "a"; Constant "b"] Py.float_one None)
     = Ok None
  /\ get_substitution
       (mkAtom (Predicate_init "p" 2) [Variable_ "X"; Variable_ "X"] Py.float_one None)
       (mkAtom (Predicate_init "p" 2) [Constant "a"; Constant "a"] Py.float_one None)
     = Ok (Some [(Variable_ "X", Constant "a")])
  /\ Term___eq__ (Constant "a") (Quote "a" false "'") = true.
Proof.
  destruct get_substitution_cases as (H1 & H2 & H3 & H4).
  split; [|split; [|split; [|split]]].
  - apply H1. reflexivity.
  - apply (H2 (mkAtom (Predicate_init "p" 2) [Constant "a"; Constant "b"]
                      Py.float_one None)); reflexivity.
  - apply (H3 (Predicate_init "p" 2) (Variable_ "X") (Constant "a") (Constant "b"));
      reflexivity.
  - apply (H3 (Predicate_init "p" 2) (Variable_ "X") (Constant "a") (Constant "b"));
      reflexivity.
  - apply (H4 (mkAtom (Predicate_init "p" 2) [Variable_ "X"; Variable_ "X"]
                      Py.float_one None)
              (mkAtom (Predicate_init "p" 2) [Constant "a"; Quote "a" false "'"]
                      Py.float_one None)
              [(Variable_ "X", Constant "a")] 0%nat 1%nat
              (Variable_ "X") (Variable_ "X"));
      solve [reflexivity | simpl; lia].
Defined.

(** ** Canonical renaming *)

Lemma index_of_app (seen : list term) (t y : term) :
  index_of (seen ++ [t]) y
  = match index_of seen y with
    | Some k => Some k
    | None => if Term___eq__ t y then Some (List.length seen) else None
    end.
Proof.
  induction seen as [|s seen IH]; simpl.
  - now destruct (Term___eq__ t y).
  - destruct (Term___eq__ s y); [reflexivity|].
    rewrite IH. destruct (index_of seen y); simpl; [reflexivity|].
    now destruct (Term___eq__ t y).
Qed.

Lemma index_of_bound (seen : list term) (t : term) (k : nat) :
  index_of seen t = Some k -> (k < List.length seen)%nat.
Proof.
  revert k. induction seen as [|s seen IH]; simpl; intros k H.
  - discriminate.
  - destruct (Term___eq__ s t).
    + injection H as <-. lia.
    + destruct (index_of seen t) as [j|]; [|discriminate].
      injection H as <-. specialize (IH j eq_refl). lia.
Qed.

Lemma position_variable_eqb (i j : nat) :
  Term___eq__ (position_variable i) (position_variable j) = (i =? j)%nat.
Proof. apply position_variable_eq. Qed.

(** Looking up a positional variable among the first ones. *)
Lemma index_of_position_variables (from n k : nat) :
  index_of (map position_variable (seq from n)) (position_variable (from + k))
  = if (k <? n)%nat then Some k else None.
Proof.
  revert from k. induction n as [|n IH]; intros from k; simpl.
  - reflexivity.
  - rewrite position_variable_eqb. destruct k as [|k].
    + now rewrite Nat.add_0_r, Nat.eqb_refl.
    + destruct (Nat.eqb_spec from (from + S k)); [lia|].
      replace (from + S k)%nat with (S from + k)%nat by lia.
      rewrite IH. change (S k <? S n)%nat with (k <? n)%nat.
      now destruct (k <? n)%nat.
Qed.

Lemma kept_constant_is_constant (t : term) :
  is_constant t = true ->
  is_constant (kept_constant t) = true
  /\ kept_constant (kept_constant t) = kept_constant t.
Proof. destruct t; simpl; auto. Qed.

Lemma kept_constant_key (t : term) : term_key (kept_constant t) = term_key t.
Proof. destruct t; reflexivity. Qed.

Lemma renamed_arguments_length (ts : list term) :
  forall index term_map,
    List.length (renamed_arguments ts index term_map) = List.length ts.
Proof.
  induction ts as [|t ts IH]; simpl; intros index term_map.
  - reflexivity.
  - destruct (is_constant t).
    + destruct t; simpl; now rewrite IH.
    + destruct (dict_get term_map t); simpl; now rewrite IH.
Qed.

Lemma canonical_terms_length (ts : list term) :
  forall seen, List.length (canonical_terms seen ts) = List.length ts.
Proof.
  induction ts as [|t ts IH]; simpl; intros seen.
  - reflexivity.
  - destruct (is_constant t); simpl; [now rewrite IH|].
    destruct (index_of seen t); simpl; now rewrite IH.
Qed.

Lemma represents_insert (seen : list term) (index : nat)
    (term_map : dict string) (t : term) :
  represents seen index term_map -> index_of seen t = None ->
  represents (seen ++ [t]) (S index)
             (dict_set term_map t (position_name index)).
Proof.
  intros [Hi Hm] Hnone. split.
  - rewrite length_app. simpl. lia.
  - intros y. rewrite dict_set_absent by (rewrite Hm, Hnone; reflexivity).
    rewrite dict_get_app, index_of_app, Hm. simpl.
    destruct (index_of seen y); simpl; [reflexivity|].
    subst index. now destruct (Term___eq__ t y).
Qed.

(** The loop of [get_renamed_atom], once its arguments are built into
    terms, computes the canonical renaming of the specification. *)
Lemma renamed_arguments_canonical (ts : list term) :
  forall seen index term_map,
    represents seen index term_map ->
    build_terms (renamed_arguments ts index term_map)
    = Ok (canonical_terms seen ts).
Proof.
  induction ts as [|t ts IH]; intros seen index term_map R.
  - reflexivity.
  - simpl. destruct (is_constant t) eqn:C.
    + assert (E : build_terms
                    (ArgTerm (kept_constant t) :: renamed_arguments ts index term_map)
                  = Ok (kept_constant t :: canonical_terms seen ts)).
      { simpl. now rewrite (IH seen index term_map R). }
      destruct t; exact E.
    + destruct R as [Hi Hm]. rewrite Hm.
      destruct (index_of seen t) as [k|] eqn:I; simpl.
      * now rewrite (IH seen index term_map (conj Hi Hm)).
      * rewrite (IH (seen ++ [t]) (S index)
                    (dict_set term_map t (position_name index))).
        -- now rewrite Hi.
        -- now apply represents_insert.
Qed.

Lemma get_renamed_atom_canonical (a : Atom) :
  well_formed a = true ->
  get_renamed_atom a
  = Ok (mkAtom (predicate a) (canonical_terms [] (terms a)) Py.float_one None).
Proof.
  unfold well_formed, get_renamed_atom, Atom_init. intros W.
  rewrite renamed_arguments_length, W. simpl.
  rewrite (renamed_arguments_canonical (terms a) [] 0%nat []).
  - reflexivity.
  - split; reflexivity.
Qed.

Lemma position_variables_snoc (n : nat) :
  map position_variable (seq 0 n) ++ [position_variable n]
  = map position_variable (seq 0 (S n)).
Proof. now rewrite seq_S, map_app. Qed.

(** Renaming a canonical sequence leaves it as it is. *)
Lemma canonical_terms_idempotent (ts : list term) :
  forall seen,
    canonical_terms (map position_variable (seq 0 (List.length seen)))
                    (canonical_terms seen ts)
    = canonical_terms seen ts.
Proof.
  induction ts as [|t ts IH]; intros seen; simpl.
  - reflexivity.
  - destruct (is_constant t) eqn:C.
    + destruct (kept_constant_is_constant t C) as [C' K].
      simpl. rewrite C', K. f_equal. apply IH.
    + destruct (index_of seen t) as [k|] eqn:I; simpl.
      * pose proof (index_of_bound _ _ _ I) as Hk.
        change (Variable_ (position_name k)) with (position_variable (0 + k)).
        rewrite index_of_position_variables.
        apply Nat.ltb_lt in Hk. rewrite Hk. f_equal. apply IH.
      * change (Variable_ (position_name (List.length seen)))
          with (position_variable (0 + List.length seen)).
        rewrite index_of_position_variables, Nat.ltb_irrefl.
        change (0 + List.length seen)%nat with (List.length seen).
        rewrite length_map, length_seq. f_equal.
        rewrite position_variables_snoc.
        replace (S (List.length seen)) with (List.length (seen ++ [t]))
          by (rewrite length_app; simpl; lia).
        apply IH.
Qed.

(** Two sequences with the same pattern get canonical renamings that are
    equal item by item. *)
Lemma canonical_terms_pattern (ts1 : list term) :
  forall ts2 seen1 seen2,
    List.length ts1 = List.length ts2 ->
    (forall t1 t2, In (t1, t2) (combine ts1 ts2) ->
       is_constant t1 = is_constant t2
       /\ (is_constant t1 = true -> Term___eq__ t1 t2 = true)) ->
    (forall x1 x2 y1 y2,
       In (x1, x2) (combine ts1 ts2) -> In (y1, y2) (combine ts1 ts2) ->
       is_constant x1 = false -> is_constant y1 = false ->
       Term___eq__ x1 y1 = Term___eq__ x2 y2) ->
    List.length seen1 = List.length seen2 ->
    (forall y1 y2, In (y1, y2) (combine ts1 ts2) -> is_constant y1 = false ->
       index_of seen1 y1 = index_of seen2 y2) ->
    tuple_eqb Term___eq__ (canonical_terms seen1 ts1) (canonical_terms seen2 ts2)
    = true.
Proof.
  induction ts1 as [|t1 ts1 IH]; intros [|t2 ts2] seen1 seen2 L HC HS Hlen HI;
    try discriminate; [reflexivity|].
  simpl in L. injection L as L. simpl combine in *.
  destruct (HC t1 t2 (or_introl eq_refl)) as [C12 E12].
  assert (tail : forall s1 s2,
            List.length s1 = List.length s2 ->
            (forall y1 y2, In (y1, y2) (combine ts1 ts2) -> is_constant y1 = false ->
               index_of s1 y1 = index_of s2 y2) ->
            tuple_eqb Term___eq__ (canonical_terms s1 ts1) (canonical_terms s2 ts2)
            = true).
  { intros s1 s2 Hl Hi. apply IH; auto.
    - intros a b Hin. apply HC. now right.
    - intros x1 x2 y1 y2 Hx Hy. apply HS; now right. }
  simpl. rewrite <- C12. destruct (is_constant t1) eqn:C1.
  - simpl. unfold Term___eq__ at 1. rewrite !kept_constant_key.
    fold (Term___eq__ t1 t2). rewrite (E12 eq_refl). simpl.
    apply tail; auto. intros y1 y2 Hin. apply HI. now right.
  - rewrite <- (HI t1 t2 (or_introl eq_refl) C1).
    destruct (index_of seen1 t1) as [k|] eqn:I1; simpl.
    + rewrite Term___eq___refl. simpl.
      apply tail; auto. intros y1 y2 Hin. apply HI. now right.
    + rewrite Hlen, Term___eq___refl. simpl.
      apply tail.
      * rewrite !length_app. simpl. lia.
      * intros y1 y2 Hin Cy. rewrite !index_of_app.
        rewrite <- (HI y1 y2 (or_intror Hin) Cy), Hlen.
        rewrite (HS t1 t2 y1 y2 (or_introl eq_refl) (or_intror Hin) C1 Cy).
        reflexivity.
Qed.

Lemma same_pattern_canonical (ts1 ts2 : list term) :
  same_pattern ts1 ts2 = true ->
  tuple_eqb Term___eq__ (canonical_terms [] ts1) (canonical_terms [] ts2) = true.
Proof.
  unfold same_pattern. intros H.
  apply andb_true_iff in H as [H HS]. apply andb_true_iff in H as [L HC].
  apply Nat.eqb_eq in L.
  rewrite forallb_forall in HC, HS.
  apply canonical_terms_pattern; auto.
  - intros t1 t2 Hin. specialize (HC _ Hin). simpl in HC.
    apply andb_true_iff in HC as [Hc He]. apply eqb_prop in Hc. split; [exact Hc|].
    intros C. rewrite C in He. exact He.
  - intros x1 x2 y1 y2 Hx Hy Cx Cy. specialize (HS _ Hx). simpl in HS.
    rewrite forallb_forall in HS. specialize (HS _ Hy). simpl in HS.
    rewrite Cx, Cy in HS. simpl in HS. now apply eqb_prop in HS.
Qed.

(** Equality of atoms, spelled out. *)
Lemma Atom_eq_spec (a b : Atom) :
  Clause_eq (OfAtom a) (OfAtom b)
  = Py.num_eqb (weight a) (weight b)
    && (Predicate_eq (predicate a) (predicate b)
        && tuple_eqb Term___eq__ (terms a) (terms b)).
Proof.
  unfold Clause_eq, Clause___eq__. simpl. now rewrite andb_true_r.
Qed.

Lemma Atom_eq_refl (a : Atom) : Clause_eq (OfAtom a) (OfAtom a) = true.
Proof.
  rewrite Atom_eq_spec, num_eqb_refl, Predicate_eq_refl.
  simpl. apply tuple_eqb_refl, Term___eq___refl.
Qed.

(** C2: on every atom left by its constructor, [get_renamed_atom] returns
    the atom of the same predicate whose terms are the canonical renaming
    (constants kept, a constant quote turned into a bare constant, every
    non-constant term replaced by [X0], [X1], ... in order of first
    occurrence, the same term by the same variable); renaming the result
    again gives an equal atom; and two atoms that are identical except for
    the names of their variables are renamed to equal atoms. *)
Theorem get_renamed_atom_canonical_key :
  (forall a : Atom,
     well_formed a = true ->
     exists r,
       get_renamed_atom a = Ok r
       /\ predicate r = predicate a
       /\ terms r = canonical_terms [] (terms a)
       /\ exists r',
            get_renamed_atom r = Ok r'
            /\ Clause_eq (OfAtom r') (OfAtom r) = true)
  /\ (forall a1 a2 : Atom,
        well_formed a1 = true -> well_formed a2 = true ->
        same_shape a1 a2 = true ->
        exists r1 r2,
          get_renamed_atom a1 = Ok r1 /\ get_renamed_atom a2 = Ok r2
          /\ Clause_eq (OfAtom r1) (OfAtom r2) = true).
Proof.
  split.
  - intros a W. eexists. split; [now apply get_renamed_atom_canonical|].
    split; [reflexivity|]. split; [reflexivity|].
    eexists. split.
    + apply get_renamed_atom_canonical. unfold well_formed in *. simpl.
      now rewrite canonical_terms_length.
    + simpl terms. simpl predicate.
      pose proof (canonical_terms_idempotent (terms a) []) as E.
      change (map position_variable (seq 0 (List.length (@nil term))))
        with (@nil term) in E.
      rewrite E. apply Atom_eq_refl.
  - intros a1 a2 W1 W2 S. unfold same_shape in S.
    apply andb_true_iff in S as [P S].
    exists (mkAtom (predicate a1) (canonical_terms [] (terms a1)) Py.float_one None),
           (mkAtom (predicate a2) (canonical_terms [] (terms a2)) Py.float_one None).
    repeat split; try now apply get_renamed_atom_canonical.
    rewrite Atom_eq_spec. simpl. rewrite P. simpl.
    now apply same_pattern_canonical.
Qed.

Lemma get_renamed_atom_canonical_key_witness :
  (exists r,
     get_renamed_atom Examples.p_B_k_B = Ok r
     /\ predicate r = predicate Examples.p_B_k_B
     /\ terms r = canonical_terms [] (terms Examples.p_B_k_B)
     /\ exists r',
          get_renamed_atom r = Ok r'
          /\ Clause_eq (OfAtom r') (OfAtom r) = true)
  /\ (exists r1 r2,
        get_renamed_atom Examples.p_B_k_B = Ok r1
        /\ get_renamed_atom Examples.p_Y_k_Y = Ok r2
        /\ Clause_eq (OfAtom r1) (OfAtom r2) = true).
Proof.
  split.
  - apply (proj1 get_renamed_atom_canonical_key Examples.p_B_k_B).
    reflexivity.
  - apply (proj2 get_renamed_atom_canonical_key
             Examples.p_B_k_B Examples.p_Y_k_Y); reflexivity.
Defined.

(** ** Weights and renaming *)

Lemma Atom_init_weight (pred : Predicate + string) (args : list argument)
    (w : Py.number) (prov : option ClauseProvenance) (a : Atom) :
  Atom_init pred args w prov = Ok a -> weight a = w /\ provenance a = prov.
Proof.
  unfold Atom_init. intros H.
  destruct (match pred with
            | inl p =>
                if negb (arity p =? Z.of_nat (List.length args))
                then Raise (AtomMalformedException (arity p)
                              (Z.of_nat (List.length args)))
                else Ok p
            | inr name => Ok (Predicate_init name (Z.of_nat (List.length args)))
            end) as [p|]; simpl in H; [|discriminate].
  destruct (build_terms args) as [ts|]; simpl in H; [|discriminate].
  inversion H; subst. auto.
Qed.

(** C9: the atom returned by [get_renamed_atom] has the weight 1.0 whatever
    the weight of its argument (and on every atom left by its constructor
    an atom is returned); an atom and the same atom under another weight are
    renamed to equal atoms. *)
Theorem get_renamed_atom_default_weight :
  (forall a r : Atom, get_renamed_atom a = Ok r -> weight r = Py.float_one)
  /\ (forall (a : Atom) (w : Py.number),
        well_formed a = true ->
        exists r1 r2,
          get_renamed_atom a = Ok r1
          /\ get_renamed_atom (with_weight a w) = Ok r2
          /\ weight r1 = Py.float_one /\ weight r2 = Py.float_one
          /\ Clause_eq (OfAtom r1) (OfAtom r2) = true).
Proof.
  split.
  - intros a r H. unfold get_renamed_atom in H.
    now apply Atom_init_weight in H.
  - intros a w W.
    exists (mkAtom (predicate a) (canonical_terms [] (terms a)) Py.float_one None),
           (mkAtom (predicate a) (canonical_terms [] (terms a)) Py.float_one None).
    split; [now apply get_renamed_atom_canonical|].
    split; [now apply (get_renamed_atom_canonical (with_weight a w))|].
    split; [reflexivity|]. split; [reflexivity|].
    apply Atom_eq_refl.
Qed.

Lemma get_renamed_atom_default_weight_witness :
  weight Examples.parent_ann_x0 = Py.float_one
  /\ (exists r1 r2,
        get_renamed_atom Examples.parent_ann_who = Ok r1
        /\ get_renamed_atom
             (with_weight Examples.parent_ann_who (Py.mkNumber (1 # 4) "0.25"))
           = Ok r2
        /\ weight r1 = Py.float_one /\ weight r2 = Py.float_one
        /\ Clause_eq (OfAtom r1) (OfAtom r2) = true).
Proof.
  split.
  - apply (proj1 get_renamed_atom_default_weight
             Examples.parent_ann_who Examples.parent_ann_x0).
    reflexivity.
  - apply (proj2 get_renamed_atom_default_weight Examples.parent_ann_who).
    reflexivity.
Defined.

(** ** Equality and hashing *)

Lemma pyval_eqb_refl (v : pyval) : pyval_eqb v v = true.
Proof.
  destruct v as [n|b|p|ts]; simpl.
  - apply num_eqb_refl.
  - now destruct b.
  - apply Predicate_eq_refl.
  - apply tuple_eqb_refl, Term___eq___refl.
Qed.

(** [==] between clauses compares the keys, whichever side answers. *)
Lemma Clause_eq_keys (x y : clause) :
  Clause_eq x y = true ->
  tuple_eqb pyval_eqb (Clause_key x) (Clause_key y) = true.
Proof.
  unfold Clause_eq, Clause___eq__.
  destruct x, y; simpl; intros H; try discriminate; exact H.
Qed.

Lemma Clause_eq_refl (c : clause) : Clause_eq c c = true.
Proof.
  unfold Clause_eq.
  destruct (class_of c) eqn:E; unfold Clause___eq__; rewrite E;
    simpl issubclass; apply tuple_eqb_refl, pyval_eqb_refl.
Qed.

(** Equality looks at the class and at the key only. *)
Lemma Clause_eq_by_key (c1 c2 : clause) :
  class_of c1 = class_of c2 -> Clause_key c1 = Clause_key c2 ->
  forall d, Clause_eq c1 d = Clause_eq c2 d /\ Clause_eq d c1 = Clause_eq d c2.
Proof.
  intros Hc Hk d. unfold Clause_eq, Clause___eq__. now rewrite Hc, Hk.
Qed.

Lemma erase_provenance_key (c : clause) :
  Clause_key (erase_provenance c) = Clause_key c
  /\ class_of (erase_provenance c) = class_of c.
Proof.
  split; [|now destruct c].
  destruct c as [a|l|c|c]; try reflexivity.
  simpl. unfold HornClause_key. simpl. f_equal.
  - now destruct (head c).
  - induction (body c) as [|l ls IH]; simpl; [reflexivity|].
    now rewrite IH.
Qed.

Lemma erase_set_provenance (c : clause) (p : option ClauseProvenance) :
  erase_provenance (set_provenance c p) = erase_provenance c.
Proof. destruct c; reflexivity. Qed.

Lemma Variable_never_Constant (s : string) :
  Term___eq__ (Variable_ s) (Constant s) = false
  /\ Term___eq__ (Constant s) (Variable_ s) = false.
Proof.
  unfold Term___eq__. simpl. now rewrite !andb_false_r.
Qed.

Section HashConsistency.

Context {builtin : BuiltinHash}.

Lemma tuple_eqb_map {A : Type} (eqb : A -> A -> bool) (h : A -> Z) :
  (forall a b, eqb a b = true -> h a = h b) ->
  forall l1 l2, tuple_eqb eqb l1 l2 = true -> map h l1 = map h l2.
Proof.
  intros Hh l1. induction l1 as [|a l1 IH]; intros [|b l2] H;
    simpl in H; try discriminate; [reflexivity|].
  apply andb_true_iff in H as [Hab Hl].
  simpl. now rewrite (Hh a b Hab), (IH l2 Hl).
Qed.

Lemma num_eqb_hash (a b : Py.number) :
  Py.num_eqb a b = true ->
  hash_num (Py.num_value a) = hash_num (Py.num_value b).
Proof. intros H. apply hash_num_value. now apply Qeq_bool_iff. Qed.

Lemma kval_eqb_hash (a b : kval) :
  kval_eqb a b = true -> hash_kval a = hash_kval b.
Proof.
  destruct a, b; simpl; intros H; try discriminate.
  - apply String.eqb_eq in H. now subst.
  - now apply num_eqb_hash.
Qed.

Lemma Term_eq_hash (x y : term) :
  Term___eq__ x y = true -> Term___hash__ x = Term___hash__ y.
Proof.
  unfold Term___eq__, Term___hash__. intros H.
  now rewrite (tuple_eqb_map kval_eqb hash_kval kval_eqb_hash _ _ H).
Qed.

Lemma Predicate_eq_hash (p q : Predicate) :
  Predicate_eq p q = true -> Predicate___hash__ p = Predicate___hash__ q.
Proof.
  intros H. apply Predicate_eq_spec in H as (Hn & Ha & _).
  unfold Predicate___hash__. now rewrite Hn, Ha.
Qed.

Lemma pyval_eqb_hash (a b : pyval) :
  pyval_eqb a b = true -> hash_pyval a = hash_pyval b.
Proof.
  destruct a as [n1|b1|p1|t1], b as [n2|b2|p2|t2]; simpl; intros H;
    try discriminate.
  - now apply num_eqb_hash.
  - now apply (num_eqb_hash n1 (Py.of_bool b2)).
  - symmetry. now apply (num_eqb_hash n2 (Py.of_bool b1)).
  - apply eqb_prop in H. now subst.
  - now apply Predicate_eq_hash.
  - now rewrite (tuple_eqb_map Term___eq__ Term___hash__ Term_eq_hash _ _ H).
Qed.

Lemma Clause_eq_hash (x y : clause) :
  Clause_eq x y = true -> Clause___hash__ x = Clause___hash__ y.
Proof.
  intros H. apply Clause_eq_keys in H. unfold Clause___hash__.
  now rewrite (tuple_eqb_map pyval_eqb hash_pyval pyval_eqb_hash _ _ H).
Qed.

(** C7: two terms that are equal have the same hash, and so have two
    clauses (atoms, literals, atom clauses, Horn clauses); the variable
    named X is not equal to the constant named X. *)
Theorem equal_implies_same_hash :
  (forall x y : term,
     Term___eq__ x y = true -> Term___hash__ x = Term___hash__ y)
  /\ (forall x y : clause,
        Clause_eq x y = true -> Clause___hash__ x = Clause___hash__ y)
  /\ Term___eq__ (Variable_ "X") (Constant "X") = false
  /\ Term___eq__ (Constant "X") (Variable_ "X") = false.
Proof.
  split; [exact Term_eq_hash|]. split; [exact Clause_eq_hash|].
  apply Variable_never_Constant.
Qed.

(** C10: two atoms with equal weights, equal predicates and equal term
    sequences are equal and have the same hash, whatever their provenances;
    and two clauses of any class that differ in provenances only (at the
    top or inside) have the same key and the same hash, are equal, and
    compare alike with every clause; so does a clause after
    [set_provenance]. *)
Theorem equality_ignores_provenance :
  (forall a b : Atom,
     Py.num_eqb (weight a) (weight b) = true ->
     Predicate_eq (predicate a) (predicate b) = true ->
     tuple_eqb Term___eq__ (terms a) (terms b) = true ->
     Clause_eq (OfAtom a) (OfAtom b) = true
     /\ Clause___hash__ (OfAtom a) = Clause___hash__ (OfAtom b))
  /\ (forall c1 c2 : clause,
        erase_provenance c1 = erase_provenance c2 ->
        Clause_key c1 = Clause_key c2
        /\ Clause___hash__ c1 = Clause___hash__ c2
        /\ Clause_eq c1 c2 = true
        /\ forall d, Clause_eq c1 d = Clause_eq c2 d
                     /\ Clause_eq d c1 = Clause_eq d c2)
  /\ (forall (c : clause) (p : option ClauseProvenance),
        Clause_eq (set_provenance c p) c = true
        /\ Clause___hash__ (set_provenance c p) = Clause___hash__ c).
Proof.
  assert (same : forall c1 c2 : clause,
            erase_provenance c1 = erase_provenance c2 ->
            Clause_key c1 = Clause_key c2 /\ class_of c1 = class_of c2).
  { intros c1 c2 E.
    destruct (erase_provenance_key c1) as [K1 C1].
    destruct (erase_provenance_key c2) as [K2 C2].
    split; congruence. }
  split; [|split].
  - intros a b Hw Hp Ht.
    assert (E : Clause_eq (OfAtom a) (OfAtom b) = true)
      by (rewrite Atom_eq_spec, Hw, Hp, Ht; reflexivity).
    split; [exact E | now apply Clause_eq_hash].
  - intros c1 c2 E. destruct (same c1 c2 E) as [K C].
    split; [exact K|]. split; [unfold Clause___hash__; now rewrite K|].
    split.
    + rewrite (proj1 (Clause_eq_by_key c1 c2 C K c2)). apply Clause_eq_refl.
    + now apply Clause_eq_by_key.
  - intros c p.
    destruct (same (set_provenance c p) c (erase_set_provenance c p)) as [K C].
    split.
    + rewrite (proj1 (Clause_eq_by_key _ c C K c)). apply Clause_eq_refl.
    + unfold Clause___hash__. now rewrite K.
Qed.

End HashConsistency.

Lemma equal_implies_same_hash_witness :
  @Term___hash__ Examples.example_hash (Constant "ann")
  = @Term___hash__ Examples.example_hash (Quote "ann" false "'")
  /\ @Clause___hash__ Examples.example_hash (OfAtom Examples.parent_ann_bob)
     = @Clause___hash__ Examples.example_hash
         (OfAtom Examples.parent_quoted_ann_bob).
Proof.
  destruct (@equal_implies_same_hash Examples.example_hash) as (Ht & Hc & _).
  split.
  - apply Ht. reflexivity.
  - apply Hc. reflexivity.
Defined.

Lemma equality_ignores_provenance_witness :
  (Clause_eq (OfAtom Examples.parent_ann_bob)
             (OfAtom Examples.parent_quoted_ann_bob) = true
   /\ @Clause___hash__ Examples.example_hash (OfAtom Examples.parent_ann_bob)
      = @Clause___hash__ Examples.example_hash
          (OfAtom Examples.parent_quoted_ann_bob))
  /\ Clause_eq (OfHornClause Examples.rule_from_file)
               (OfHornClause Examples.rule_built) = true.
Proof.
  destruct (@equality_ignores_provenance Examples.example_hash) as (Ha & Hc & _).
  split.
  - apply Ha; reflexivity.
  - apply (Hc (OfHornClause Examples.rule_from_file)
              (OfHornClause Examples.rule_built)).
    reflexivity.
Defined.

(** * Further properties *)

(** ** Place holders and quoted terms *)

Lemma match_name_spec (s : string) :
  forall seen,
    PlaceHolder.match_name seen s = true <->
    exists nm post : string,
      s = (nm ++ "}" ++ post)%string /\ all_name_chars nm = true
      /\ (seen = true \/ nm <> EmptyString).
Proof.
  induction s as [|c rest IH]; intros seen; simpl.
  - split; [discriminate|].
    intros (nm & post & E & _). destruct nm; discriminate.
  - destruct (PlaceHolder.is_name_char c) eqn:N.
    + rewrite IH. split.
      * intros (nm & post & E & A & _). exists (String c nm), post.
        subst rest. repeat split.
        -- unfold all_name_chars. simpl. now rewrite N.
        -- right. discriminate.
      * intros (nm & post & E & A & _). destruct nm as [|c' nm].
        -- simpl in E. injection E as -> _. discriminate.
        -- simpl in E. injection E as -> ->.
           exists nm, post. unfold all_name_chars in A. simpl in A.
           apply andb_true_iff in A as [_ A]. auto.
    + split.
      * intros H. apply andb_true_iff in H as [H ->].
        apply Ascii.eqb_eq in H. subst c.
        exists EmptyString, rest. auto.
      * intros (nm & post & E & A & Hs). destruct nm as [|c' nm].
        -- simpl in E. injection E as -> _.
           destruct Hs as [->|Hs]; [reflexivity | now elim Hs].
        -- simpl in E. injection E as -> _. unfold all_name_chars in A.
           simpl in A. rewrite N in A. discriminate.
Qed.

Lemma search_spec (s : string) :
  PlaceHolder.search s = true <-> has_place_holder s.
Proof.
  unfold has_place_holder. induction s as [|c rest IH]; simpl.
  - split; [discriminate|].
    intros (pre & nm & post & E & _). destruct pre; discriminate.
  - rewrite orb_true_iff, andb_true_iff, IH, match_name_spec, Ascii.eqb_eq.
    split.
    + intros [[-> (nm & post & -> & A & [Hs|Hs])] | (pre & nm & post & -> & Hn & A)];
        try discriminate.
      * exists EmptyString, nm, post. auto.
      * exists (String c pre), nm, post. auto.
    + intros (pre & nm & post & E & Hn & A). destruct pre as [|c' pre].
      * simpl in E. injection E as -> ->. left. split; [reflexivity|].
        exists nm, post. auto.
      * simpl in E. injection E as -> ->. right.
        exists pre, nm, post. auto.
Qed.

(** X1: a quoted term can be built from every text but the empty one, on
    which [Quote] raises IndexError; the term built is a template exactly
    when the text holds an opening brace, a non-empty name of letters,
    digits, underscores and hyphens, and a closing brace; and it is
    constant exactly when it is not a template. *)
Theorem Quote_template_iff_place_holder (raw : string) :
  (raw = EmptyString -> Quote_init raw = Raise IndexError)
  /\ (raw <> EmptyString ->
      exists t,
        Quote_init raw = Ok t
        /\ (is_template t = true <-> has_place_holder raw)
        /\ is_constant t = negb (is_template t)).
Proof.
  split.
  - intros ->. reflexivity.
  - intros H. destruct raw as [|c rest]; [now elim H|].
    eexists. split; [reflexivity|]. split; [|reflexivity].
    exact (search_spec (String c rest)).
Qed.

Lemma Quote_template_iff_place_holder_witness :
  Quote_init EmptyString = Raise IndexError
  /\ exists t,
       Quote_init "'hello {name}'" = Ok t
       /\ (is_template t = true <-> has_place_holder "'hello {name}'")
       /\ is_constant t = negb (is_template t).
Proof.
  split.
  - apply (proj1 (Quote_template_iff_place_holder EmptyString)). reflexivity.
  - apply (proj2 (Quote_template_iff_place_holder "'hello {name}'")).
    discriminate.
Defined.

(** ** Terms from strings *)

Lemma get_last (r : string) :
  forall c, exists l, String.get (String.length r) (String c r) = Some l.
Proof.
  induction r as [|c' r IH]; intros c.
  - exists c. reflexivity.
  - destruct (IH c') as [l Hl]. exists l. exact Hl.
Qed.

Lemma last_char_nonempty (c : ascii) (r : string) :
  exists l, Py.last_char (String c r) = Ok l
            /\ String.get (String.length r) (String c r) = Some l.
Proof.
  destruct (get_last r c) as [l Hl]. exists l. split; [|exact Hl].
  unfold Py.last_char.
  replace (String.length (String c r) - 1)%nat with (String.length r)
    by (simpl; lia).
  now rewrite Hl.
Qed.

Lemma last_split (r : string) :
  forall c l,
    String.get (String.length r) (String c r) = Some l ->
    String c r
    = (String.substring 0 (String.length r) (String c r) ++ String l EmptyString)%string.
Proof.
  induction r as [|c' r IH]; intros c l H.
  - simpl in H. injection H as ->. reflexivity.
  - change (String.get (String.length r) (String c' r) = Some l) in H.
    change (String c (String c' r)
            = String c (String.substring 0 (String.length r) (String c' r)
                        ++ String l EmptyString)%string).
    f_equal. now apply IH.
Qed.

Lemma strip_ends_inner (c c1 : ascii) (r : string) :
  Py.strip_ends (String c (String c1 r))
  = String.substring 0 (String.length r) (String c1 r).
Proof.
  unfold Py.strip_ends.
  replace (String.length (String c (String c1 r)) - 2)%nat
    with (String.length r) by (simpl; lia).
  reflexivity.
Qed.

(** The text of a quoted term built from a string of two characters or
    more that begins and ends with the same character is that string. *)
Lemma Quote_init_str (s : string) (c : ascii) (t : term) :
  Py.first_char s = Ok c -> Py.last_char s = Ok c ->
  (2 <= String.length s)%nat ->
  Quote_init s = Ok t -> term_str t = s.
Proof.
  destruct s as [|c0 r]; [discriminate|].
  destruct r as [|c1 r]; [simpl; lia|].
  intros F L _ H. injection F as ->.
  destruct (last_char_nonempty c (String c1 r)) as (l & L' & G).
  rewrite L in L'. injection L' as <-.
  unfold Quote_init in H. simpl in H. injection H as <-.
  rewrite strip_ends_inner.
  change (String.get (String.length r) (String c1 r) = Some c) in G.
  change (String c (String.substring 0 (String.length r) (String c1 r)
                    ++ String c EmptyString)%string
          = String c (String c1 r)).
  f_equal. symmetry. now apply last_split.
Qed.

(** X2: the text of the term that [get_term_from_string] builds from a
    string is that string, for a variable, for a constant, and for a quoted
    term built from two characters or more; from a single quote mark it
    builds the empty quoted term, whose text is two quote marks. *)
Theorem get_term_from_string_str :
  (forall (s : string) (t : term),
     get_term_from_string s = Ok t ->
     (2 <= String.length s)%nat \/ isinstance_Quote t = false ->
     term_str t = s)
  /\ (forall c : ascii,
        Py.is_quote_mark c = true ->
        get_term_from_string (String c EmptyString)
        = Ok (Quote EmptyString false (String c EmptyString))
        /\ term_str (Quote EmptyString false (String c EmptyString))
           = String c (String c EmptyString)).
Proof.
  split.
  - intros s t H Hq. unfold get_term_from_string in H.
    destruct (Py.first_char s) as [c|] eqn:F; simpl in H; [|discriminate].
    destruct (Py.isupper c); [now injection H as <-|].
    destruct (Py.islower c || Ascii.eqb c "_"); [now injection H as <-|].
    destruct (Py.last_char s) as [l|] eqn:L; simpl in H; [|discriminate].
    destruct (Ascii.eqb c l) eqn:E; simpl in H; [|discriminate].
    destruct (Py.is_quote_mark c); simpl in H; [|discriminate].
    apply Ascii.eqb_eq in E. subst l.
    destruct Hq as [Hlen|Hq].
    + now apply (Quote_init_str s c t).
    + unfold Quote_init in H. rewrite F in H. simpl in H.
      injection H as <-. discriminate.
  - intros c Hc. unfold Py.is_quote_mark in Hc.
    apply orb_true_iff in Hc as [Hc|Hc]; apply Ascii.eqb_eq in Hc; subst c;
      split; reflexivity.
Qed.

Lemma get_term_from_string_str_witness :
  term_str (Quote "it's" false "'") = "'it's'"
  /\ term_str (Variable_ "Who") = "Who"
  /\ get_term_from_string "'"
     = Ok (Quote EmptyString false "'").
Proof.
  destruct get_term_from_string_str as [H1 H2].
  split; [|split].
  - apply (H1 "'it's'" (Quote "it's" false "'")).
    + reflexivity.
    + left. simpl. lia.
  - apply (H1 "Who" (Variable_ "Who")).
    + reflexivity.
    + right. reflexivity.
  - apply (H2 "'"%char). reflexivity.
Defined.

(** X3: [get_constant_from_string] raises IndexError on the empty string
    and nothing else on any string; it never returns a variable; and it
    returns the same term as [get_term_from_string] whenever that one
    returns a term that is not a variable. *)
Theorem get_constant_from_string_never_variable :
  get_constant_from_string EmptyString = Raise IndexError
  /\ (forall s : string,
        s <> EmptyString ->
        exists t, get_constant_from_string s = Ok t
                  /\ isinstance_Variable t = false)
  /\ (forall (s : string) (t : term),
        get_term_from_string s = Ok t -> isinstance_Variable t = false ->
        get_constant_from_string s = Ok t).
Proof.
  split; [reflexivity|]. split.
  - intros s H. destruct s as [|c r]; [now elim H|].
    unfold get_constant_from_string.
    assert (F : Py.first_char (String c r) = Ok c) by reflexivity.
    rewrite F. simpl bind.
    assert (L : exists l, Py.last_char (String c r) = Ok l)
      by (destruct (last_char_nonempty c r) as (l & Hl & _); eauto).
    destruct L as [l ->]. simpl bind.
    destruct (Ascii.eqb c l && Py.is_quote_mark c).
    + unfold Quote_init. rewrite F. simpl. eauto.
    + eauto.
  - intros s t H Hv. unfold get_term_from_string in H.
    unfold get_constant_from_string.
    destruct (Py.first_char s) as [c|] eqn:F; simpl in *; [|discriminate].
    destruct (Py.isupper c) eqn:U.
    { injection H as <-. discriminate. }
    destruct (Py.islower c || Ascii.eqb c "_") eqn:Lw.
    + injection H as <-.
      destruct (Py.last_char s) as [l|] eqn:L; simpl.
      * replace (Py.is_quote_mark c) with false; [now rewrite andb_false_r|].
        symmetry. unfold Py.is_quote_mark.
        apply orb_true_iff in Lw as [Lw|Lw].
        -- unfold Py.islower, Py.between in Lw.
           apply andb_true_iff in Lw as [L1 L2].
           apply orb_false_iff. split; apply Ascii.eqb_neq; intros ->;
             vm_compute in L1; discriminate.
        -- apply Ascii.eqb_eq in Lw. now subst c.
      * exfalso. destruct s as [|c0 r]; [discriminate|].
        destruct (last_char_nonempty c0 r) as (l & Hl & _). congruence.
    + destruct (Py.last_char s) as [l|]; simpl in *; [|discriminate].
      destruct (Ascii.eqb c l && Py.is_quote_mark c); [exact H | discriminate].
Qed.

Lemma get_constant_from_string_never_variable_witness :
  (exists t, get_constant_from_string "Ann" = Ok t
             /\ isinstance_Variable t = false)
  /\ get_constant_from_string "'Ann'" = Ok (Quote "Ann" false "'").
Proof.
  destruct get_constant_from_string_never_variable as (_ & H1 & H2).
  split.
  - apply H1. discriminate.
  - apply H2; reflexivity.
Defined.

(** ** Constructors *)

Lemma build_terms_length (args : list argument) :
  forall ts, build_terms args = Ok ts -> List.length ts = List.length args.
Proof.
  induction args as [|x args IH]; simpl; intros ts H.
  - now injection H as <-.
  - destruct (match x with
              | ArgTerm t => Ok t
              | ArgStr s => get_term_from_string s
              | ArgNum n => Ok (Number n)
              | ArgOther => Raise TermMalformedException
              end); simpl in H; [|discriminate].
    destruct (build_terms args) as [ts'|]; simpl in H; [|discriminate].
    injection H as <-. simpl. now rewrite (IH ts').
Qed.

(** X4: an atom returned by the constructor has as many terms as the
    arity of its predicate, the terms built from the arguments, and the
    weight and provenance given; given a name, its predicate is the plain
    predicate of that name whose arity is the number of arguments, and the
    only errors are those of building the terms (never the atom-malformed
    one). *)
Theorem Atom_init_invariant :
  (forall pred args w prov a,
     Atom_init pred args w prov = Ok a ->
     well_formed a = true
     /\ build_terms args = Ok (terms a)
     /\ weight a = w /\ provenance a = prov
     /\ match pred with
        | inl p => predicate a = p
        | inr nm => predicate a = Predicate_init nm (Z.of_nat (List.length args))
        end)
  /\ (forall nm args w prov e,
        Atom_init (inr nm) args w prov = Raise e -> build_terms args = Raise e).
Proof.
  split.
  - intros pred args w prov a H.
    split; [exact (Atom_init_well_formed _ _ _ _ _ H)|].
    unfold Atom_init in H. destruct pred as [p|nm]; simpl in H.
    + destruct (arity p =? Z.of_nat (List.length args)); simpl in H; [|discriminate].
      destruct (build_terms args) as [ts|]; simpl in H; [|discriminate].
      injection H as <-. simpl. auto.
    + destruct (build_terms args) as [ts|]; simpl in H; [|discriminate].
      injection H as <-. simpl. auto.
  - intros nm args w prov e H. unfold Atom_init in H. simpl in H.
    destruct (build_terms args) as [ts|]; simpl in H; [discriminate|].
    now injection H as ->.
Qed.

Lemma Atom_init_invariant_witness :
  well_formed Examples.parent_ann_x0 = true
  /\ build_terms [ArgStr "ann"; ArgStr "X0"] = Ok (terms Examples.parent_ann_x0)
  /\ weight Examples.parent_ann_x0 = Py.float_one
  /\ provenance Examples.parent_ann_x0 = None
  /\ predicate Examples.parent_ann_x0 = Predicate_init "parent" 2.
Proof.
  apply (proj1 Atom_init_invariant (inr "parent") [ArgStr "ann"; ArgStr "X0"]
               Py.float_one None Examples.parent_ann_x0).
  reflexivity.
Defined.

Lemma Literal_init_well_formed (a : Atom) (n : bool) :
  well_formed a = true ->
  Literal_init a n
  = Ok (mkLiteral (mkAtom (predicate a) (terms a) Py.float_one (provenance a)) n).
Proof.
  unfold well_formed, Literal_init. intros W. apply Z.eqb_eq in W.
  now rewrite Atom_init_terms.
Qed.

(** X5: from an atom left by its constructor a literal is built; it keeps
    the predicate, the terms and the provenance of the atom, takes the
    negation given and the weight 1.0, so the weight of the atom is lost;
    and wrapping the atom of a literal again gives the same literal. *)
Theorem Literal_init_drops_weight :
  (forall (a : Atom) (n : bool),
     well_formed a = true ->
     exists l,
       Literal_init a n = Ok l
       /\ negated l = n
       /\ predicate (literal_atom l) = predicate a
       /\ terms (literal_atom l) = terms a
       /\ provenance (literal_atom l) = provenance a
       /\ weight (literal_atom l) = Py.float_one
       /\ (forall w, Literal_init (with_weight a w) n = Ok l))
  /\ (forall (a : Atom) (n : bool) (l : Literal),
        Literal_init a n = Ok l -> Literal_init (literal_atom l) n = Ok l).
Proof.
  split.
  - intros a n W. eexists. split; [now apply Literal_init_well_formed|].
    repeat split. intros w.
    now rewrite (Literal_init_well_formed (with_weight a w) n W).
  - intros a n l H. unfold Literal_init in H.
    destruct (Atom_init (inl (predicate a)) (map ArgTerm (terms a)) Py.float_one
                (provenance a)) as [b|] eqn:E; simpl in H; [|discriminate].
    injection H as <-. simpl.
    destruct (proj1 Atom_init_invariant _ _ _ _ _ E) as (W & _ & Hw & Hp & _).
    rewrite (Literal_init_well_formed b n W).
    destruct b as [p ts w pr]. simpl in *. now subst.
Qed.

Lemma Literal_init_drops_weight_witness :
  exists l,
    Literal_init Examples.parent_ann_who true = Ok l
    /\ negated l = true
    /\ predicate (literal_atom l) = predicate Examples.parent_ann_who
    /\ terms (literal_atom l) = terms Examples.parent_ann_who
    /\ provenance (literal_atom l) = provenance Examples.parent_ann_who
    /\ weight (literal_atom l) = Py.float_one
    /\ (forall w, Literal_init (with_weight Examples.parent_ann_who w) true = Ok l).
Proof.
  apply (proj1 Literal_init_drops_weight Examples.parent_ann_who true).
  reflexivity.
Defined.

(** X6: from an atom left by its constructor an atom clause is built; it
    holds a copy of the atom without provenance and, beside it, the
    provenance of the atom; its key is the key of the atom, so two atom
    clauses are equal exactly when their atoms are; it renders as the atom
    followed by a full stop; and it is never equal to its own atom. *)
Theorem AtomClause_init_copies :
  forall a : Atom,
    well_formed a = true ->
    exists c,
      AtomClause_init a = Ok c
      /\ atom c = with_provenance a None
      /\ atom_clause_provenance c = provenance a
      /\ Clause_key (OfAtomClause c) = Clause_key (OfAtom a)
      /\ AtomClause___repr__ c = (Atom___repr__ a ++ ".")%string
      /\ Clause_eq (OfAtomClause c) (OfAtom a) = false
      /\ Clause_eq (OfAtom a) (OfAtomClause c) = false
      /\ (forall b cb,
            AtomClause_init b = Ok cb ->
            Clause_eq (OfAtomClause c) (OfAtomClause cb)
            = Clause_eq (OfAtom a) (OfAtom b)).
Proof.
  intros a W. unfold well_formed in W. apply Z.eqb_eq in W.
  exists (mkAtomClause (with_provenance a None) (provenance a)).
  split; [unfold AtomClause_init; now rewrite Atom_init_terms|].
  repeat split.
  intros b cb H. unfold AtomClause_init in H.
  destruct (Atom_init (inl (predicate b)) (map ArgTerm (terms b)) (weight b) None)
    as [b'|] eqn:E; simpl in H; [|discriminate].
  injection H as <-.
  destruct (proj1 Atom_init_invariant _ _ _ _ _ E) as (_ & Hb & Hw & _ & Hp).
  rewrite build_terms_of_terms in Hb. injection Hb as Hb.
  unfold Clause_eq, Clause___eq__. simpl.
  unfold AtomClause_key, Atom_key. simpl. now rewrite <- Hb, Hw, Hp.
Qed.

Lemma AtomClause_init_copies_witness :
  exists c,
    AtomClause_init Examples.parent_ann_bob = Ok c
    /\ atom c = with_provenance Examples.parent_ann_bob None
    /\ Clause_key (OfAtomClause c) = Clause_key (OfAtom Examples.parent_ann_bob)
    /\ Clause_eq (OfAtomClause c) (OfAtom Examples.parent_ann_bob) = false
    /\ Clause_eq (OfAtomClause c)
                 (OfAtomClause (mkAtomClause Examples.parent_quoted_ann_bob None))
       = true.
Proof.
  destruct (AtomClause_init_copies Examples.parent_ann_bob eq_refl)
    as (c & H1 & H2 & _ & H4 & _ & H6 & _ & H8).
  exists c. repeat split; try assumption.
  rewrite (H8 Examples.parent_quoted_ann_bob
              (mkAtomClause Examples.parent_quoted_ann_bob None) eq_refl).
  reflexivity.
Defined.

(** ** Equality *)

(** X7: two clauses that compare equal are of the same class: an atom is
    never equal to a literal, to an atom clause or to a Horn clause,
    whatever their keys. *)
Theorem Clause_eq_same_class (x y : clause) :
  Clause_eq x y = true -> class_of x = class_of y.
Proof.
  unfold Clause_eq, Clause___eq__.
  destruct x, y; simpl; intros H; try discriminate; reflexivity.
Qed.

Lemma Clause_eq_same_class_witness :
  class_of (OfAtom Examples.parent_ann_bob)
  = class_of (OfAtom Examples.parent_quoted_ann_bob).
Proof.
  apply Clause_eq_same_class. reflexivity.
Defined.

Lemma of_bool_eqb (a b : bool) :
  Py.num_eqb (Py.of_bool a) (Py.of_bool b) = Bool.eqb a b.
Proof. now destruct a, b. Qed.

Lemma Predicate_eq_sym (p q : Predicate) : Predicate_eq p q = Predicate_eq q p.
Proof.
  destruct (Predicate_eq p q) eqn:E1, (Predicate_eq q p) eqn:E2; auto.
  - apply Predicate_eq_spec in E1 as (A & B & C).
    assert (Predicate_eq q p = true) by (apply Predicate_eq_spec; auto).
    congruence.
  - apply Predicate_eq_spec in E2 as (A & B & C).
    assert (Predicate_eq p q = true) by (apply Predicate_eq_spec; auto).
    congruence.
Qed.

Lemma Predicate_eq_trans (p q r : Predicate) :
  Predicate_eq p q = true -> Predicate_eq q r = true -> Predicate_eq p r = true.
Proof.
  rewrite !Predicate_eq_spec. intros (A & B & C) (D & E & F).
  repeat split; congruence.
Qed.

Lemma pyval_eqb_sym (a b : pyval) : pyval_eqb a b = pyval_eqb b a.
Proof.
  destruct a as [n1|b1|p1|t1], b as [n2|b2|p2|t2]; simpl; try reflexivity.
  - apply num_eqb_sym.
  - now destruct b1, b2.
  - apply Predicate_eq_sym.
  - apply tuple_eqb_sym, Term___eq___sym.
Qed.

Lemma pyval_eqb_trans (a b c : pyval) :
  pyval_eqb a b = true -> pyval_eqb b c = true -> pyval_eqb a c = true.
Proof.
  destruct a as [n1|b1|p1|t1], b as [n2|b2|p2|t2], c as [n3|b3|p3|t3];
    simpl; try discriminate; intros H1 H2.
  - eauto using num_eqb_trans.
  - eauto using num_eqb_trans.
  - rewrite num_eqb_sym in H2. eauto using num_eqb_trans.
  - apply eqb_prop in H2. now subst.
  - rewrite num_eqb_sym in H2. eauto using num_eqb_trans.
  - rewrite num_eqb_sym in H1. rewrite <- of_bool_eqb.
    eauto using num_eqb_trans.
  - apply eqb_prop in H1. now subst.
  - apply eqb_prop in H1. now subst.
  - eauto using Predicate_eq_trans.
  - eapply tuple_eqb_trans; eauto using Term___eq___trans.
Qed.

(** X8: [==] is an equivalence on terms and on clauses of every class:
    reflexive, symmetric and transitive. *)
Theorem equality_is_equivalence :
  (forall t : term, Term___eq__ t t = true)
  /\ (forall a b : term, Term___eq__ a b = Term___eq__ b a)
  /\ (forall a b c : term,
        Term___eq__ a b = true -> Term___eq__ b c = true ->
        Term___eq__ a c = true)
  /\ (forall x : clause, Clause_eq x x = true)
  /\ (forall x y : clause, Clause_eq x y = Clause_eq y x)
  /\ (forall x y z : clause,
        Clause_eq x y = true -> Clause_eq y z = true -> Clause_eq x z = true).
Proof.
  split; [exact Term___eq___refl|]. split; [exact Term___eq___sym|].
  split; [exact Term___eq___trans|]. split; [exact Clause_eq_refl|].
  split.
  - intros x y. unfold Clause_eq, Clause___eq__.
    destruct x, y; cbn [class_of issubclass]; try reflexivity;
      apply (tuple_eqb_sym pyval_eqb pyval_eqb_sym).
  - intros x y z H1 H2.
    pose proof (Clause_eq_same_class _ _ H1) as C1.
    pose proof (Clause_eq_same_class _ _ H2) as C2.
    apply Clause_eq_keys in H1, H2.
    assert (K : tuple_eqb pyval_eqb (Clause_key x) (Clause_key z) = true)
      by (eapply tuple_eqb_trans; eauto using pyval_eqb_trans).
    unfold Clause_eq, Clause___eq__. rewrite <- C2, <- C1.
    destruct (class_of x); cbn [issubclass]; exact K.
Qed.

Lemma equality_is_equivalence_witness :
  Term___eq__ (Constant "ann") (Constant "ann") = true
  /\ Clause_eq (OfAtom Examples.parent_ann_bob)
               (OfAtom (with_provenance Examples.parent_ann_bob None)) = true.
Proof.
  destruct equality_is_equivalence as (_ & _ & Ht & _ & _ & Hc).
  split.
  - apply (Ht _ (Quote "ann" false "'")); reflexivity.
  - apply (Hc _ (OfAtom Examples.parent_quoted_ann_bob)); reflexivity.
Defined.

(** ** Equivalent predicates *)

(** X9: [equivalent] is reflexive and symmetric and holds only between
    predicates of the same name; between two predicates of non-negative
    arity it is [==]; a negative arity matches every arity, which makes the
    relation not transitive: a predicate of negative arity is equivalent to
    two predicates of one name that are not equivalent to each other. *)
Theorem equivalent_wildcard_arity :
  (forall p : Predicate, equivalent p p = true)
  /\ (forall p q : Predicate, equivalent p q = equivalent q p)
  /\ (forall p q : Predicate, equivalent p q = true -> name p = name q)
  /\ (forall p q : Predicate,
        0 <= arity p -> 0 <= arity q -> equivalent p q = Predicate_eq p q)
  /\ (forall (nm : string) (n m k : Z),
        0 <= n -> 0 <= m -> n <> m -> k < 0 ->
        equivalent (Predicate_init nm n) (Predicate_init nm k) = true
        /\ equivalent (Predicate_init nm k) (Predicate_init nm m) = true
        /\ equivalent (Predicate_init nm n) (Predicate_init nm m) = false).
Proof.
  split; [|split; [|split; [|split]]].
  - intros p. unfold equivalent.
    destruct ((arity p <? 0) || (arity p <? 0));
      [apply String.eqb_refl | apply Predicate_eq_refl].
  - intros p q. unfold equivalent. rewrite orb_comm.
    destruct ((arity q <? 0) || (arity p <? 0));
      [apply String.eqb_sym | apply Predicate_eq_sym].
  - intros p q. unfold equivalent.
    destruct ((arity p <? 0) || (arity q <? 0)).
    + apply String.eqb_eq.
    + intros H. now apply Predicate_eq_spec in H.
  - intros p q Hp Hq. unfold equivalent.
    apply Z.ltb_ge in Hp, Hq. now rewrite Hp, Hq.
  - intros nm n m k Hn Hm Hnm Hk. unfold equivalent. simpl.
    apply Z.ltb_ge in Hn, Hm. apply Z.ltb_lt in Hk.
    rewrite Hn, Hm, Hk, String.eqb_refl. simpl. repeat split.
    unfold Predicate_eq, Predicate___eq__. simpl.
    apply Z.eqb_neq in Hnm. now rewrite Hnm, andb_false_r.
Qed.

Lemma equivalent_wildcard_arity_witness :
  name (Predicate_init "age" (-1)) = name (Predicate_init "age" 2)
  /\ equivalent (Predicate_init "age" 1) (Predicate_init "age" 2)
     = Predicate_eq (Predicate_init "age" 1) (Predicate_init "age" 2)
  /\ equivalent (Predicate_init "age" 1) (Predicate_init "age" (-1)) = true
  /\ equivalent (Predicate_init "age" (-1)) (Predicate_init "age" 2) = true
  /\ equivalent (Predicate_init "age" 1) (Predicate_init "age" 2) = false.
Proof.
  destruct equivalent_wildcard_arity as (_ & _ & H3 & H4 & H5).
  split; [|split].
  - apply H3. reflexivity.
  - apply H4; simpl; lia.
  - apply (H5 "age" 1 2 (-1)); lia.
Defined.

(** ** Variables of an atom *)

Lemma variable_indices_loop (a : Atom) (m : nat) :
  forall (k : nat) (pre rest : list term),
    terms a = pre ++ rest -> List.length pre = k -> List.length rest = m ->
    (fix loop (positions : list nat) : exc (list nat) :=
       match positions with
       | [] => Ok []
       | i :: rest =>
           t <- list_index (terms a) i ;;
           indexes <- loop rest ;;
           Ok (if negb (is_constant t) then i :: indexes else indexes)
       end) (seq k m)
    = Ok (variable_positions k rest).
Proof.
  induction m as [|m IH]; intros k pre rest E Lp Lr.
  - destruct rest; [reflexivity | discriminate].
  - destruct rest as [|t rest]; [discriminate|].
    simpl in Lr. injection Lr as Lr. simpl seq. cbv beta iota.
    unfold list_index at 1. rewrite E, nth_error_app2 by lia.
    rewrite Lp, Nat.sub_diag. simpl nth_error. simpl bind at 1.
    rewrite <- E.
    rewrite (IH (S k) (pre ++ [t]) rest).
    + simpl. now destruct (is_constant t).
    + now rewrite <- app_assoc.
    + rewrite length_app. simpl. lia.
    + exact Lr.
Qed.

Lemma variable_positions_spec (ts : list term) :
  forall from i,
    In i (variable_positions from ts) <->
    exists t, (from <= i)%nat /\ nth_error ts (i - from) = Some t
              /\ is_constant t = false.
Proof.
  induction ts as [|t ts IH]; intros from i; simpl.
  - split; [intros [] | intros (t & _ & H & _)].
    now destruct (i - from)%nat.
  - assert (R : (exists u, (S from <= i)%nat /\ nth_error ts (i - S from) = Some u
                           /\ is_constant u = false)
                <-> (exists u, (from < i)%nat
                               /\ nth_error (t :: ts) (i - from) = Some u
                               /\ is_constant u = false)).
    { split; intros (u & Hle & Hn & Hc); exists u; repeat split; auto; try lia.
      - replace (i - from)%nat with (S (i - S from)) by lia. exact Hn.
      - replace (i - from)%nat with (S (i - S from)) in Hn by lia. exact Hn. }
    destruct (is_constant t) eqn:C; simpl.
    + rewrite IH, R. split.
      * intros (u & Hlt & H). exists u. split; [lia | exact H].
      * intros (u & Hle & Hn & Hc). exists u.
        destruct (Nat.eq_dec i from) as [->|Hne].
        -- rewrite Nat.sub_diag in Hn. simpl in Hn. congruence.
        -- repeat split; auto. lia.
    + rewrite IH, R. split.
      * intros [<-|(u & Hlt & H)].
        -- exists t. rewrite Nat.sub_diag. auto.
        -- exists u. split; [lia | exact H].
      * intros (u & Hle & Hn & Hc).
        destruct (Nat.eq_dec i from) as [->|Hne]; [now left|].
        right. exists u. repeat split; auto. lia.
Qed.

Lemma variable_positions_length (ts : list term) :
  forall from,
    List.length (variable_positions from ts)
    = List.length (filter (fun t => negb (is_constant t)) ts).
Proof.
  induction ts as [|t ts IH]; intros from; simpl; [reflexivity|].
  destruct (is_constant t); simpl; now rewrite IH.
Qed.

Lemma variable_positions_nil (ts : list term) :
  forall from, variable_positions from ts = [] <-> forallb is_constant ts = true.
Proof.
  induction ts as [|t ts IH]; intros from; simpl; [tauto|].
  destruct (is_constant t); simpl; [apply IH|].
  split; discriminate.
Qed.

Lemma variable_positions_sorted (ts : list term) :
  forall from,
    StronglySorted lt (variable_positions from ts)
    /\ Forall (fun i => (from <= i)%nat) (variable_positions from ts).
Proof.
  induction ts as [|t ts IH]; intros from; simpl.
  - split; constructor.
  - destruct (IH (S from)) as [S1 F1].
    assert (F : Forall (fun i => (from < i)%nat) (variable_positions (S from) ts))
      by (eapply Forall_impl; [|exact F1]; simpl; intros; lia).
    destruct (is_constant t); simpl.
    + split; [exact S1|]. eapply Forall_impl; [|exact F]. simpl. intros. lia.
    + split; [now constructor|]. constructor; [lia|].
      eapply Forall_impl; [|exact F]. simpl. intros. lia.
Qed.

Lemma get_variable_indices_eq (a : Atom) :
  well_formed a = true ->
  get_variable_indices a = Ok (variable_positions 0 (terms a)).
Proof.
  unfold well_formed. intros W. apply Z.eqb_eq in W.
  unfold get_variable_indices, range, Atom_arity. rewrite W, Nat2Z.id.
  now apply (variable_indices_loop a _ 0%nat []).
Qed.

(** X10: on an atom left by its constructor [get_variable_indices] returns,
    in increasing order, exactly the positions whose term is not constant;
    there are [get_number_of_variables] of them, and none exactly when the
    atom is grounded. *)
Theorem get_variable_indices_positions (a : Atom) :
  well_formed a = true ->
  exists indexes,
    get_variable_indices a = Ok indexes
    /\ (forall i, In i indexes <->
                  exists t, nth_error (terms a) i = Some t
                            /\ is_constant t = false)
    /\ List.length indexes = get_number_of_variables a
    /\ (indexes = [] <-> is_grounded a = true)
    /\ StronglySorted lt indexes.
Proof.
  intros W.
  exists (variable_positions 0 (terms a)). split.
  - now apply get_variable_indices_eq.
  - split; [|split; [|split]].
    + intros i. rewrite variable_positions_spec. rewrite Nat.sub_0_r.
      split; intros (t & H); exists t; intuition lia.
    + apply variable_positions_length.
    + apply variable_positions_nil.
    + apply variable_positions_sorted.
Qed.

Lemma get_variable_indices_positions_witness :
  exists indexes,
    get_variable_indices Examples.p_B_k_B = Ok indexes
    /\ (forall i, In i indexes <->
                  exists t, nth_error (terms Examples.p_B_k_B) i = Some t
                            /\ is_constant t = false)
    /\ List.length indexes = get_number_of_variables Examples.p_B_k_B
    /\ (indexes = [] <-> is_grounded Examples.p_B_k_B = true)
    /\ StronglySorted lt indexes.
Proof.
  apply (get_variable_indices_positions Examples.p_B_k_B). reflexivity.
Defined.

(** ** Renaming and variables *)

Lemma kept_constant_not_Quote (t : term) :
  isinstance_Quote (kept_constant t) = false.
Proof. now destruct t. Qed.

(** A canonical renaming keeps constant what was constant and nothing
    else. *)
Lemma canonical_terms_constancy (ts : list term) :
  forall seen, map is_constant (canonical_terms seen ts) = map is_constant ts.
Proof.
  induction ts as [|t ts IH]; intros seen; simpl; [reflexivity|].
  destruct (is_constant t) eqn:C.
  - simpl. rewrite IH. now destruct (kept_constant_is_constant t C) as [-> _].
  - destruct (index_of seen t); simpl; now rewrite IH.
Qed.

(** In a canonical renaming no term is a quote and every non-constant term
    is a variable. *)
Lemma canonical_terms_shape (ts : list term) :
  forall seen,
    Forall (fun r => isinstance_Quote r = false
                     /\ (is_constant r = false -> isinstance_Variable r = true))
           (canonical_terms seen ts).
Proof.
  induction ts as [|t ts IH]; intros seen; simpl; [constructor|].
  destruct (is_constant t) eqn:C.
  - constructor; [|apply IH]. split; [apply kept_constant_not_Quote|].
    destruct (kept_constant_is_constant t C) as [-> _]. discriminate.
  - destruct (index_of seen t); (constructor; [|apply IH]); split; reflexivity.
Qed.

Lemma variable_positions_by_constancy (ts rs : list term) :
  map is_constant rs = map is_constant ts ->
  forall from, variable_positions from rs = variable_positions from ts.
Proof.
  revert rs. induction ts as [|t ts IH]; intros [|r rs] E from;
    try discriminate; [reflexivity|].
  simpl in E. injection E as E1 E2. simpl. rewrite E1.
  now rewrite (IH rs E2).
Qed.

Lemma filter_by_constancy (ts rs : list term) :
  map is_constant rs = map is_constant ts ->
  List.length (filter (fun t => negb (is_constant t)) rs)
  = List.length (filter (fun t => negb (is_constant t)) ts)
  /\ forallb is_constant rs = forallb is_constant ts.
Proof.
  revert rs. induction ts as [|t ts IH]; intros [|r rs] E;
    try discriminate; [split; reflexivity|].
  simpl in E. injection E as E1 E2. destruct (IH rs E2) as [L F].
  simpl. rewrite E1, F. split; [|reflexivity].
  destruct (is_constant t); simpl; now rewrite L.
Qed.

(** X11: renaming an atom left by its constructor keeps its shape: the
    same positions hold non-constant terms, so the variable indices, the
    number of variables and groundedness are those of the atom; in the
    renamed atom every non-constant term is a variable and no term is a
    quote. *)
Theorem get_renamed_atom_keeps_positions (a : Atom) :
  well_formed a = true ->
  exists r,
    get_renamed_atom a = Ok r
    /\ well_formed r = true
    /\ get_variable_indices r = get_variable_indices a
    /\ get_number_of_variables r = get_number_of_variables a
    /\ is_grounded r = is_grounded a
    /\ (forall t, In t (terms r) ->
          isinstance_Quote t = false
          /\ (is_constant t = false -> isinstance_Variable t = true)).
Proof.
  intros W.
  exists (mkAtom (predicate a) (canonical_terms [] (terms a)) Py.float_one None).
  split; [now apply get_renamed_atom_canonical|].
  assert (Wr : well_formed (mkAtom (predicate a) (canonical_terms [] (terms a))
                                   Py.float_one None) = true).
  { unfold well_formed in *. simpl. now rewrite canonical_terms_length. }
  pose proof (canonical_terms_constancy (terms a) []) as K.
  destruct (filter_by_constancy _ _ K) as [L F].
  split; [exact Wr|]. split; [|split; [|split]].
  - rewrite (get_variable_indices_eq _ Wr), (get_variable_indices_eq _ W).
    simpl terms. now rewrite (variable_positions_by_constancy _ _ K).
  - exact L.
  - exact F.
  - simpl terms. apply Forall_forall. apply canonical_terms_shape.
Qed.

Lemma get_renamed_atom_keeps_positions_witness :
  exists r,
    get_renamed_atom Examples.p_B_k_B = Ok r
    /\ well_formed r = true
    /\ get_variable_indices r = get_variable_indices Examples.p_B_k_B
    /\ get_number_of_variables r = get_number_of_variables Examples.p_B_k_B
    /\ is_grounded r = is_grounded Examples.p_B_k_B
    /\ (forall t, In t (terms r) ->
          isinstance_Quote t = false
          /\ (is_constant t = false -> isinstance_Variable t = true)).
Proof.
  apply (get_renamed_atom_keeps_positions Examples.p_B_k_B). reflexivity.
Defined.

(** ** The variable atom *)

Lemma canonical_position_variables (m : nat) :
  forall k,
    canonical_terms (map position_variable (seq 0 k))
                    (map position_variable (seq k m))
    = map position_variable (seq k m).
Proof.
  induction m as [|m IH]; intros k; simpl; [reflexivity|].
  change (position_variable k) with (position_variable (0 + k)) at 1.
  rewrite index_of_position_variables, Nat.ltb_irrefl.
  rewrite length_map, length_seq. f_equal.
  rewrite position_variables_snoc. apply IH.
Qed.

(** X12: for a predicate of arity [n >= 0] the variable atom is built; its
    terms are the [n] variables [X0] ... [X(n-1)], no two of them equal,
    with the weight 1.0 and no provenance; it is its own canonical
    renaming; asked of a literal, the result is the literal of that atom
    with the same negation.  For a negative arity the constructor raises
    the atom-malformed exception, expecting the arity and finding 0. *)
Theorem get_variable_atom_canonical (p : Predicate) :
  (0 <= arity p ->
   exists g,
     get_variable_atom (inl p) = Ok (AnAtom g)
     /\ predicate g = p /\ weight g = Py.float_one /\ provenance g = None
     /\ terms g = map position_variable (range (arity p))
     /\ Z.of_nat (get_number_of_variables g) = arity p
     /\ (forall i j, Term___eq__ (position_variable i) (position_variable j)
                     = (i =? j)%nat)
     /\ get_renamed_atom g = Ok g
     /\ (forall l, predicate (literal_atom l) = p ->
           get_variable_atom (inr (ALiteral l))
           = Ok (ALiteral (mkLiteral g (negated l)))))
  /\ (arity p < 0 ->
      get_variable_atom (inl p) = Raise (AtomMalformedException (arity p) 0)).
Proof.
  split.
  - intros H.
    exists (mkAtom p (map position_variable (range (arity p))) Py.float_one None).
    assert (W : well_formed (mkAtom p (map position_variable (range (arity p)))
                                    Py.float_one None) = true).
    { unfold well_formed, range. simpl. rewrite length_map, length_seq.
      apply Z.eqb_eq. lia. }
    split; [now apply get_variable_atom_of_predicate|].
    repeat split.
    + unfold get_number_of_variables, range. simpl.
      rewrite <- (Z2Nat.id (arity p)) at 2 by exact H.
      f_equal. generalize (Z.to_nat (arity p)), 0%nat.
      intros n. induction n as [|n IH]; intros k; simpl; [reflexivity|].
      now rewrite IH.
    + apply position_variable_eqb.
    + rewrite (get_renamed_atom_canonical _ W). simpl. unfold range.
      now rewrite (canonical_position_variables _ 0%nat).
    + intros l Hl. unfold get_variable_atom. simpl as_atom. rewrite Hl.
      rewrite <- (map_map (fun i => Variable_ (position_name i)) ArgTerm).
      rewrite Atom_init_terms
        by (unfold range; rewrite length_map, length_seq; lia).
      simpl bind. change (fun i => Variable_ (position_name i)) with position_variable.
      now rewrite (Literal_init_well_formed _ (negated l) W).
  - intros H. unfold get_variable_atom, Atom_init, range.
    rewrite length_map, length_seq.
    replace (Z.to_nat (arity p)) with 0%nat by lia. simpl.
    destruct (Z.eqb_spec (arity p) 0); [lia | reflexivity].
Qed.

Lemma get_variable_atom_canonical_witness :
  (exists g,
     get_variable_atom (inl Examples.parent) = Ok (AnAtom g)
     /\ terms g = map position_variable (range (arity Examples.parent))
     /\ get_renamed_atom g = Ok g)
  /\ get_variable_atom (inl (Predicate_init "age" (-1)))
     = Raise (AtomMalformedException (-1) 0).
Proof.
  split.
  - destruct (proj1 (get_variable_atom_canonical Examples.parent))
      as (g & H1 & _ & _ & _ & H5 & _ & _ & H8 & _).
    + simpl. lia.
    + exists g. auto.
  - apply (proj2 (get_variable_atom_canonical (Predicate_init "age" (-1)))).
    simpl. lia.
Defined.

(** ** Renamed literals *)

(** X13: from an atom or a literal left by its constructor
    [get_renamed_literal] builds the literal whose atom is the renamed atom;
    it is negated exactly when the argument is a negated literal (a plain
    atom gives a positive literal); and renaming the result again returns
    it unchanged. *)
Theorem get_renamed_literal_keeps_negation (x : atomic) :
  well_formed (as_atom x) = true ->
  exists r,
    get_renamed_atom (as_atom x) = Ok r
    /\ get_renamed_literal x
       = Ok (mkLiteral r match x with
                         | ALiteral l => negated l
                         | AnAtom _ => false
                         end)
    /\ get_renamed_literal (ALiteral (mkLiteral r match x with
                                                  | ALiteral l => negated l
                                                  | AnAtom _ => false
                                                  end))
       = get_renamed_literal x.
Proof.
  intros W.
  set (r := mkAtom (predicate (as_atom x))
                   (canonical_terms [] (terms (as_atom x))) Py.float_one None).
  assert (Wr : well_formed r = true).
  { unfold well_formed in *. simpl. now rewrite canonical_terms_length. }
  assert (Hr : get_renamed_atom (as_atom x) = Ok r)
    by now apply get_renamed_atom_canonical.
  assert (Hrr : get_renamed_atom r = Ok r).
  { rewrite (get_renamed_atom_canonical r Wr). unfold r at 1 2. simpl.
    pose proof (canonical_terms_idempotent (terms (as_atom x)) []) as E.
    change (map position_variable (seq 0 (List.length (@nil term))))
      with (@nil term) in E.
    now rewrite E. }
  assert (L : forall n, Literal_init r n = Ok (mkLiteral r n))
    by (intros n; now rewrite (Literal_init_well_formed r n Wr)).
  exists r. split; [exact Hr|].
  assert (E : forall n, get_renamed_literal (ALiteral (mkLiteral r n))
                        = Ok (mkLiteral r n)).
  { intros n. unfold get_renamed_literal. simpl as_atom. rewrite Hrr.
    simpl bind. apply L. }
  split.
  - unfold get_renamed_literal. rewrite Hr. simpl bind. apply L.
  - rewrite E. unfold get_renamed_literal. rewrite Hr. simpl bind.
    symmetry. apply L.
Qed.

Lemma get_renamed_literal_keeps_negation_witness :
  exists r,
    get_renamed_atom Examples.p_B_k_B = Ok r
    /\ get_renamed_literal (ALiteral (mkLiteral Examples.p_B_k_B true))
       = Ok (mkLiteral r true)
    /\ get_renamed_literal (ALiteral (mkLiteral r true))
       = get_renamed_literal (ALiteral (mkLiteral Examples.p_B_k_B true)).
Proof.
  apply (get_renamed_literal_keeps_negation
           (ALiteral (mkLiteral Examples.p_B_k_B true))).
  reflexivity.
Defined.

(** ** More on substitutions *)

Lemma tuple_eqb_pointwise {A : Type} (eqb : A -> A -> bool) (l1 : list A) :
  forall l2,
    tuple_eqb eqb l1 l2 = true <->
    List.length l1 = List.length l2
    /\ forall i a b, nth_error l1 i = Some a -> nth_error l2 i = Some b ->
                     eqb a b = true.
Proof.
  induction l1 as [|x l1 IH]; intros [|y l2]; simpl.
  - split; [|reflexivity]. intros _. split; [reflexivity|].
    intros [|i] a b H; discriminate.
  - split; [discriminate | intros [H _]; discriminate].
  - split; [discriminate | intros [H _]; discriminate].
  - rewrite andb_true_iff, IH. split.
    + intros [E [L P]]. split; [now rewrite L|].
      intros [|i] a b Ha Hb; simpl in *.
      * injection Ha as <-. injection Hb as <-. exact E.
      * eauto.
    + intros [L P]. split; [apply (P 0%nat); reflexivity|].
      split; [now injection L|].
      intros i a b Ha Hb. apply (P (S i)); assumption.
Qed.

Lemma equal_predicates_equal_lengths (g s : Atom) :
  well_formed g = true -> well_formed s = true ->
  Predicate_ne (predicate g) (predicate s) = false ->
  List.length (terms g) = Z.to_nat (Atom_arity g)
  /\ List.length (terms s) = Z.to_nat (Atom_arity g).
Proof.
  unfold well_formed, Predicate_ne, Atom_arity. intros Wg Ws P.
  apply Z.eqb_eq in Wg, Ws. apply negb_false_iff in P.
  apply Predicate_eq_spec in P as (_ & A & _).
  rewrite A at 2. rewrite Wg, Ws, !Nat2Z.id. auto.
Qed.

Lemma substitution_loop_returns (g s : Atom) (positions : list nat) :
  (forall i, In i positions ->
     (i < List.length (terms g))%nat /\ (i < List.length (terms s))%nat) ->
  forall d, exists r, substitution_loop g s positions d = Ok r.
Proof.
  induction positions as [|i rest IH]; intros Hin d; simpl.
  - eauto.
  - destruct (Hin i (or_introl eq_refl)) as [Hg Hs].
    apply nth_error_Some in Hg, Hs. unfold list_index.
    destruct (nth_error (terms g) i) as [gi|]; [|now elim Hg].
    destruct (nth_error (terms s) i) as [si|]; [|now elim Hs].
    simpl. assert (Hrest : forall j, In j rest ->
                     (j < List.length (terms g))%nat
                     /\ (j < List.length (terms s))%nat)
      by (intros j Hj; apply Hin; now right).
    destruct (is_constant gi && Term___ne__ gi si); [eauto|].
    destruct (dict_get d gi) as [v|]; [|now apply IH].
    destruct (Term___ne__ v si); [eauto | now apply IH].
Qed.

(** X14: on two atoms left by their constructors [get_substitution]
    raises nothing: it returns [None] or a dictionary. *)
Theorem get_substitution_never_raises (g s : Atom) :
  well_formed g = true -> well_formed s = true ->
  exists r, get_substitution g s = Ok r.
Proof.
  intros Wg Ws. unfold get_substitution.
  destruct (Predicate_ne (predicate g) (predicate s)) eqn:P; [eauto|].
  destruct (equal_predicates_equal_lengths g s Wg Ws P) as [Lg Ls].
  apply substitution_loop_returns.
  intros i Hi. apply in_seq in Hi. lia.
Qed.

Lemma get_substitution_never_raises_witness :
  exists r, get_substitution Examples.p_B_k_B Examples.parent_ann_bob = Ok r.
Proof.
  apply get_substitution_never_raises; reflexivity.
Defined.

Lemma substitution_loop_entries (g s : Atom) (positions : list nat) :
  forall d sigma,
    substitution_loop g s positions d = Ok (Some sigma) ->
    forall k v, In (k, v) sigma ->
      In (k, v) d
      \/ exists i, In i positions /\ nth_error (terms g) i = Some k
                   /\ nth_error (terms s) i = Some v.
Proof.
  induction positions as [|i rest IH]; intros d sigma H k v Hin.
  - simpl in H. injection H as <-. now left.
  - simpl in H. unfold list_index in H.
    destruct (nth_error (terms g) i) as [gi|] eqn:Gi; simpl in H; [|discriminate].
    destruct (nth_error (terms s) i) as [si|] eqn:Si; simpl in H; [|discriminate].
    destruct (is_constant gi && Term___ne__ gi si); [discriminate|].
    destruct (dict_get d gi) as [w|] eqn:D.
    + destruct (Term___ne__ w si); [discriminate|].
      destruct (IH d sigma H k v Hin) as [Hd|(j & Hj & Hg & Hs)]; [now left|].
      right. exists j. split; [now right | auto].
    + rewrite (dict_set_absent d gi si D) in H.
      destruct (IH _ sigma H k v Hin) as [Hd|(j & Hj & Hg & Hs)].
      * apply in_app_or in Hd as [Hd|[E|[]]]; [now left|].
        injection E as <- <-. right. exists i. split; [now left | auto].
      * right. exists j. split; [now right | auto].
Qed.

(** X15: a substitution returned by [get_substitution] unifies the generic
    atom with the specific one and binds nothing else: looking up the
    generic term of any position gives a term equal to the specific term of
    that position, and every entry pairs the generic and the specific term
    of one position. *)
Theorem get_substitution_sound (g s : Atom) (sigma : dict term) :
  get_substitution g s = Ok (Some sigma) ->
  (forall i, (i < Z.to_nat (Atom_arity g))%nat ->
     exists gi si v,
       nth_error (terms g) i = Some gi /\ nth_error (terms s) i = Some si
       /\ dict_get sigma gi = Some v /\ Term___eq__ v si = true)
  /\ (forall k v, In (k, v) sigma ->
        exists i, (i < Z.to_nat (Atom_arity g))%nat
                  /\ nth_error (terms g) i = Some k
                  /\ nth_error (terms s) i = Some v).
Proof.
  unfold get_substitution. intros H.
  destruct (Predicate_ne (predicate g) (predicate s)); [discriminate|].
  split.
  - intros i Hi. apply (proj2 (substitution_loop_binds _ _ _ _ _ H)).
    apply in_seq. lia.
  - intros k v Hin.
    destruct (substitution_loop_entries _ _ _ _ _ H k v Hin)
      as [[]|(i & Hi & Hg & Hs)].
    exists i. apply in_seq in Hi. repeat split; auto. lia.
Qed.

Lemma get_substitution_sound_witness :
  (forall i, (i < Z.to_nat (Atom_arity Examples.p_B_k_B))%nat ->
     exists gi si v,
       nth_error (terms Examples.p_B_k_B) i = Some gi
       /\ nth_error [Constant "a"; Constant "k"; Constant "a"] i = Some si
       /\ dict_get [(Variable_ "B", Constant "a");
                    (Quote "k" false "'", Constant "k")] gi = Some v
       /\ Term___eq__ v si = true)
  /\ (forall k v,
        In (k, v) [(Variable_ "B", Constant "a");
                   (Quote "k" false "'", Constant "k")] ->
        exists i, (i < Z.to_nat (Atom_arity Examples.p_B_k_B))%nat
                  /\ nth_error (terms Examples.p_B_k_B) i = Some k
                  /\ nth_error [Constant "a"; Constant "k"; Constant "a"] i
                     = Some v).
Proof.
  apply (get_substitution_sound Examples.p_B_k_B
           (mkAtom Examples.p3 [Constant "a"; Constant "k"; Constant "a"]
                   Py.float_one None)).
  reflexivity.
Defined.

Lemma dict_get_In {V : Type} (d : dict V) (x : term) (v : V) :
  dict_get d x = Some v -> exists k, In (k, v) d /\ Term___eq__ k x = true.
Proof.
  induction d as [|[k w] d IH]; simpl; [discriminate|].
  destruct (Term___eq__ k x) eqn:E.
  - intros H. injection H as <-. exists k. auto.
  - intros H. destruct (IH H) as (k' & Hin & Hk). exists k'. auto.
Qed.

(** When the terms agree position by position, the loop ends with a
    dictionary. *)
Lemma substitution_loop_equal (g s : Atom) (positions : list nat) :
  (forall i, In i positions ->
     exists gi si, nth_error (terms g) i = Some gi
                   /\ nth_error (terms s) i = Some si
                   /\ Term___eq__ gi si = true) ->
  forall d,
    (forall k v, In (k, v) d -> Term___eq__ k v = true) ->
    exists sigma, substitution_loop g s positions d = Ok (Some sigma).
Proof.
  induction positions as [|i rest IH]; intros Hpos d Hd; simpl.
  - eauto.
  - destruct (Hpos i (or_introl eq_refl)) as (gi & si & Gi & Si & E).
    unfold list_index. rewrite Gi, Si. simpl.
    unfold Term___ne__ at 1. rewrite E, andb_false_r.
    assert (Hrest : forall j, In j rest ->
              exists gj sj, nth_error (terms g) j = Some gj
                            /\ nth_error (terms s) j = Some sj
                            /\ Term___eq__ gj sj = true)
      by (intros j Hj; apply Hpos; now right).
    destruct (dict_get d gi) as [v|] eqn:D.
    + destruct (dict_get_In d gi v D) as (k & Hin & Hk).
      pose proof (Hd k v Hin) as Hkv. rewrite Term___eq___sym in Hkv.
      assert (Hv : Term___eq__ v si = true)
        by (eapply Term___eq___trans; [exact Hkv|];
            eapply Term___eq___trans; eauto).
      unfold Term___ne__. rewrite Hv. simpl. now apply IH.
    + apply IH; [exact Hrest|].
      rewrite (dict_set_absent d gi si D). intros k v Hin.
      apply in_app_or in Hin as [Hin|[Hin|[]]]; [now apply Hd|].
      now injection Hin as <- <-.
Qed.

(** Where the loop ends with a dictionary, every constant generic term
    visited equals the specific term it faces. *)
Lemma substitution_loop_constants (g s : Atom) (positions : list nat) :
  forall d sigma,
    substitution_loop g s positions d = Ok (Some sigma) ->
    forall i gi si,
      In i positions -> nth_error (terms g) i = Some gi ->
      nth_error (terms s) i = Some si -> is_constant gi = true ->
      Term___eq__ gi si = true.
Proof.
  induction positions as [|i rest IH]; intros d sigma H j gj sj Hj Gj Sj C.
  - destruct Hj.
  - simpl in H. unfold list_index in H.
    destruct (nth_error (terms g) i) as [gi|] eqn:Gi; simpl in H; [|discriminate].
    destruct (nth_error (terms s) i) as [si|] eqn:Si; simpl in H; [|discriminate].
    destruct (is_constant gi && Term___ne__ gi si) eqn:T; [discriminate|].
    assert (Hhere : i = j -> Term___eq__ gj sj = true).
    { intros <-. rewrite Gi in Gj. rewrite Si in Sj.
      injection Gj as <-. injection Sj as <-.
      rewrite C in T. simpl in T. unfold Term___ne__ in T.
      now apply negb_false_iff in T. }
    destruct Hj as [E|Hj]; [now apply Hhere|].
    destruct (dict_get d gi) as [v|].
    + destruct (Term___ne__ v si); [discriminate|]. eapply IH; eauto.
    + eapply IH; eauto.
Qed.

(** X16: between atoms left by their constructors, an atom unifies with
    every atom that has an equal predicate and equal terms, itself
    included; and a grounded atom unifies with those atoms only. *)
Theorem get_substitution_of_equal_atoms (g s : Atom) :
  well_formed g = true -> well_formed s = true ->
  (Predicate_eq (predicate g) (predicate s) = true ->
   tuple_eqb Term___eq__ (terms g) (terms s) = true ->
   exists sigma, get_substitution g s = Ok (Some sigma))
  /\ (exists sigma, get_substitution g g = Ok (Some sigma))
  /\ (is_grounded g = true ->
      forall sigma, get_substitution g s = Ok (Some sigma) ->
      Predicate_eq (predicate g) (predicate s) = true
      /\ tuple_eqb Term___eq__ (terms g) (terms s) = true).
Proof.
  intros Wg Ws.
  assert (unify : forall s', well_formed s' = true ->
            Predicate_eq (predicate g) (predicate s') = true ->
            tuple_eqb Term___eq__ (terms g) (terms s') = true ->
            exists sigma, get_substitution g s' = Ok (Some sigma)).
  { intros s' Ws' P T. unfold get_substitution, Predicate_ne. rewrite P. simpl.
    assert (P' : Predicate_ne (predicate g) (predicate s') = false)
      by (unfold Predicate_ne; now rewrite P).
    destruct (equal_predicates_equal_lengths g s' Wg Ws' P') as [Lg Ls].
    apply tuple_eqb_pointwise in T as [_ T].
    apply substitution_loop_equal; [|intros k v []].
    intros i Hi. apply in_seq in Hi.
    destruct (nth_error (terms g) i) as [gi|] eqn:Gi;
      [|apply nth_error_None in Gi; lia].
    destruct (nth_error (terms s') i) as [si|] eqn:Si;
      [|apply nth_error_None in Si; lia].
    exists gi, si. eauto. }
  split; [now apply unify|]. split.
  - apply unify; auto using Predicate_eq_refl.
    apply tuple_eqb_refl, Term___eq___refl.
  - intros G sigma H. unfold get_substitution in H.
    destruct (Predicate_ne (predicate g) (predicate s)) eqn:P; [discriminate|].
    split; [unfold Predicate_ne in P; now apply negb_false_iff in P|].
    destruct (equal_predicates_equal_lengths g s Wg Ws P) as [Lg Ls].
    apply tuple_eqb_pointwise. split; [congruence|].
    intros i gi si Gi Si.
    apply (substitution_loop_constants _ _ _ _ _ H i gi si); auto.
    + apply in_seq. assert (i < List.length (terms g))%nat
        by (apply nth_error_Some; congruence). lia.
    + unfold is_grounded in G. rewrite forallb_forall in G.
      apply G. eapply nth_error_In; eauto.
Qed.

Lemma get_substitution_of_equal_atoms_witness :
  (exists sigma,
     get_substitution Examples.parent_ann_bob Examples.parent_quoted_ann_bob
     = Ok (Some sigma))
  /\ Predicate_eq (predicate Examples.parent_ann_bob)
                  (predicate Examples.parent_quoted_ann_bob) = true
  /\ tuple_eqb Term___eq__ (terms Examples.parent_ann_bob)
               (terms Examples.parent_quoted_ann_bob) = true.
Proof.
  destruct (get_substitution_of_equal_atoms
              Examples.parent_ann_bob Examples.parent_quoted_ann_bob
              eq_refl eq_refl) as (H1 & _ & H3).
  split.
  - apply H1; reflexivity.
  - apply (H3 eq_refl [(Constant "ann", Quote "ann" false "'");
                       (Constant "bob", Constant "bob")]).
    reflexivity.
Defined.

(** ** Term types, further *)

(** X17: compatibility of term types is reflexive and symmetric; a merge
    gives a type exactly for compatible types; the merged type is variable
    when either is, is a number type exactly when either is, and is
    compatible with both; but compatibility is not transitive: the unknown
    number is compatible with both a number and a non-number. *)
Theorem is_compatible_properties :
  (forall t, is_compatible t t = true)
  /\ (forall a b, is_compatible a b = is_compatible b a)
  /\ (forall a b, is_compatible a b = true <-> update_type a b <> None)
  /\ (forall a b t,
        update_type a b = Some t ->
        variable t = variable a || variable b
        /\ (number t = Some true <->
            number a = Some true \/ number b = Some true)
        /\ is_compatible t a = true /\ is_compatible t b = true)
  /\ (forall v1 v2 v3,
        is_compatible (mkTermType v1 (Some true)) (mkTermType v2 None) = true
        /\ is_compatible (mkTermType v2 None) (mkTermType v3 (Some false)) = true
        /\ is_compatible (mkTermType v1 (Some true)) (mkTermType v3 (Some false))
           = false).
Proof.
  split; [|split; [|split; [|split]]].
  - intros [v [[|]|]]; reflexivity.
  - intros [v1 [[|]|]] [v2 [[|]|]]; reflexivity.
  - intros a b. unfold update_type.
    destruct (is_compatible a b); simpl; split; congruence.
  - intros [v1 n1] [v2 n2] t H. unfold update_type in H.
    destruct (is_compatible (mkTermType v1 n1) (mkTermType v2 n2)) eqn:C;
      simpl in H; [|discriminate].
    injection H as <-. simpl.
    destruct n1 as [[|]|], n2 as [[|]|]; simpl in *; try discriminate;
      repeat split; try reflexivity; try tauto;
      try (intros [H|H]; discriminate); try discriminate.
  - intros v1 v2 v3. repeat split.
Qed.

Lemma is_compatible_properties_witness :
  variable (mkTermType true (Some true)) = false || true
  /\ (number (mkTermType true (Some true)) = Some true <->
      number (mkTermType false None) = Some true
      \/ number (mkTermType true (Some true)) = Some true)
  /\ is_compatible (mkTermType true (Some true)) (mkTermType false None) = true
  /\ is_compatible (mkTermType true (Some true)) (mkTermType true (Some true))
     = true.
Proof.
  destruct is_compatible_properties as (_ & _ & _ & H & _).
  apply (H (mkTermType false None) (mkTermType true (Some true))).
  reflexivity.
Defined.

(** ** Equality of Horn clauses *)

Lemma tuple_eqb_length {A : Type} (eqb : A -> A -> bool) (l1 : list A) :
  forall l2, tuple_eqb eqb l1 l2 = true -> List.length l1 = List.length l2.
Proof.
  induction l1 as [|a l1 IH]; intros [|b l2]; simpl; try discriminate; auto.
  intros H. apply andb_true_iff in H as [_ H]. now rewrite (IH l2).
Qed.

Lemma tuple_eqb_app {A : Type} (eqb : A -> A -> bool) (k1 : list A) :
  forall k2 r1 r2,
    List.length k1 = List.length k2 ->
    tuple_eqb eqb (k1 ++ r1) (k2 ++ r2)
    = tuple_eqb eqb k1 k2 && tuple_eqb eqb r1 r2.
Proof.
  induction k1 as [|a k1 IH]; intros [|b k2] r1 r2 L; try discriminate.
  - reflexivity.
  - simpl in L. injection L as L. simpl. rewrite (IH k2 r1 r2 L).
    now rewrite andb_assoc.
Qed.

Lemma body_keys_length (ls : list Literal) :
  List.length (flat_map Literal_key ls) = (4 * List.length ls)%nat.
Proof.
  induction ls as [|l ls IH]; [reflexivity|].
  simpl flat_map. simpl List.length at 1. rewrite IH. simpl. lia.
Qed.

Lemma Literal_eq_keys (l1 l2 : Literal) :
  Clause_eq (OfLiteral l1) (OfLiteral l2)
  = tuple_eqb pyval_eqb (Literal_key l1) (Literal_key l2).
Proof. reflexivity. Qed.

Lemma body_keys_eqb (b1 : list Literal) :
  forall b2,
    tuple_eqb pyval_eqb (flat_map Literal_key b1) (flat_map Literal_key b2) = true
    <-> Forall2 (fun l1 l2 => Clause_eq (OfLiteral l1) (OfLiteral l2) = true) b1 b2.
Proof.
  induction b1 as [|l1 b1 IH]; intros [|l2 b2].
  - split; [constructor | reflexivity].
  - split; [discriminate | intros H; inversion H].
  - split; [discriminate | intros H; inversion H].
  - cbn [flat_map]. rewrite tuple_eqb_app by reflexivity.
    rewrite andb_true_iff, IH, <- Literal_eq_keys. split.
    + intros [H1 H2]. now constructor.
    + intros H. inversion H; subst. auto.
Qed.

(** X18: two Horn clauses are equal exactly when their heads are equal
    (as atoms or as literals) and their bodies have the same length and
    equal literals at each position: the order of the body counts, the
    provenances do not. *)
Theorem HornClause_eq_head_and_body (c1 c2 : HornClause) :
  Clause_eq (OfHornClause c1) (OfHornClause c2) = true
  <-> Clause_eq (of_atomic (head c1)) (of_atomic (head c2)) = true
      /\ Forall2 (fun l1 l2 => Clause_eq (OfLiteral l1) (OfLiteral l2) = true)
                 (body c1) (body c2).
Proof.
  rewrite <- body_keys_eqb.
  change (Clause_eq (OfHornClause c1) (OfHornClause c2))
    with (tuple_eqb pyval_eqb
            (atomic_key (head c1) ++ flat_map Literal_key (body c1))
            (atomic_key (head c2) ++ flat_map Literal_key (body c2))).
  destruct (head c1) as [a1|l1], (head c2) as [a2|l2].
  - rewrite tuple_eqb_app by reflexivity. rewrite andb_true_iff.
    unfold of_atomic. now rewrite Atom_eq_spec; unfold atomic_key, Atom_key;
      simpl; rewrite andb_true_r.
  - split.
    + intros H. apply tuple_eqb_length in H. rewrite !length_app in H.
      rewrite !body_keys_length in H. simpl in H. lia.
    + intros [H _]. discriminate.
  - split.
    + intros H. apply tuple_eqb_length in H. rewrite !length_app in H.
      rewrite !body_keys_length in H. simpl in H. lia.
    + intros [H _]. discriminate.
  - rewrite tuple_eqb_app by reflexivity. rewrite andb_true_iff.
    unfold of_atomic. now rewrite Literal_eq_keys.
Qed.

Lemma HornClause_eq_head_and_body_witness :
  Clause_eq (of_atomic (head Examples.rule_from_file))
            (of_atomic (head Examples.rule_built)) = true
  /\ Forall2 (fun l1 l2 => Clause_eq (OfLiteral l1) (OfLiteral l2) = true)
             (body Examples.rule_from_file) (body Examples.rule_built).
Proof.
  apply (proj1 (HornClause_eq_head_and_body
                  Examples.rule_from_file Examples.rule_built)).
  reflexivity.
Defined.

(** ** Items of a Horn clause *)

(** X19: indexing a Horn clause: item 0 is the head; item [i] from 1 to
    the length of the body is the body literal at position [i - 1]; a
    greater item raises IndexError.  A negative item [i] is taken one
    position before Python's usual place: it is the body literal at
    position [len(body) + i - 1], so that item -1 is the last literal but
    one, and IndexError is raised once that position is negative. *)
Theorem HornClause_getitem_positions (c : HornClause) (item : Z) :
  let n := Z.of_nat (List.length (body c)) in
  (item = 0 -> HornClause___getitem__ c item = Ok (head c))
  /\ (1 <= item <= n ->
      exists l, nth_error (body c) (Z.to_nat (item - 1)) = Some l
                /\ HornClause___getitem__ c item = Ok (ALiteral l))
  /\ (n < item -> HornClause___getitem__ c item = Raise IndexError)
  /\ (item < 0 -> 0 <= n + item - 1 ->
      exists l, nth_error (body c) (Z.to_nat (n + item - 1)) = Some l
                /\ HornClause___getitem__ c item = Ok (ALiteral l))
  /\ (item < 0 -> n + item - 1 < 0 ->
      HornClause___getitem__ c item = Raise IndexError).
Proof.
  intros n. unfold HornClause___getitem__, py_getitem, list_index.
  fold n. split; [intros ->; reflexivity|].
  split; [|split; [|split]].
  - intros H. destruct (Z.eqb_spec item 0); [lia|].
    destruct (Z.ltb_spec (item - 1) 0); [lia|].
    destruct (Z.ltb_spec (item - 1) 0); [lia|].
    destruct (nth_error (body c) (Z.to_nat (item - 1))) as [l|] eqn:E.
    + exists l. auto.
    + apply nth_error_None in E. lia.
  - intros H. destruct (Z.eqb_spec item 0); [lia|].
    destruct (Z.ltb_spec (item - 1) 0); [lia|].
    destruct (Z.ltb_spec (item - 1) 0); [lia|].
    destruct (nth_error (body c) (Z.to_nat (item - 1))) as [l|] eqn:E;
      [|reflexivity].
    assert (Z.to_nat (item - 1) < List.length (body c))%nat
      by (apply nth_error_Some; congruence). lia.
  - intros H1 H2. destruct (Z.eqb_spec item 0); [lia|].
    destruct (Z.ltb_spec (item - 1) 0); [|lia].
    replace (item - 1 + n) with (n + item - 1) by lia.
    destruct (Z.ltb_spec (n + item - 1) 0); [lia|].
    destruct (nth_error (body c) (Z.to_nat (n + item - 1))) as [l|] eqn:E.
    + exists l. auto.
    + apply nth_error_None in E. lia.
  - intros H1 H2. destruct (Z.eqb_spec item 0); [lia|].
    destruct (Z.ltb_spec (item - 1) 0); [|lia].
    replace (item - 1 + n) with (n + item - 1) by lia.
    destruct (Z.ltb_spec (n + item - 1) 0); [reflexivity | lia].
Qed.

Lemma HornClause_getitem_positions_witness :
  HornClause___getitem__ Examples.rule_built 0 = Ok (head Examples.rule_built)
  /\ (exists l, nth_error (body Examples.rule_built) (Z.to_nat (1 - 1)) = Some l
                /\ HornClause___getitem__ Examples.rule_built 1 = Ok (ALiteral l))
  /\ HornClause___getitem__ Examples.rule_built 2 = Raise IndexError
  /\ HornClause___getitem__ Examples.rule_built (-1) = Raise IndexError.
Proof.
  split; [|split; [|split]].
  - destruct (HornClause_getitem_positions Examples.rule_built 0) as (H & _).
    apply H. reflexivity.
  - destruct (HornClause_getitem_positions Examples.rule_built 1)
      as (_ & H & _).
    apply H. simpl. lia.
  - destruct (HornClause_getitem_positions Examples.rule_built 2)
      as (_ & _ & H & _).
    apply H. simpl. lia.
  - destruct (HornClause_getitem_positions Examples.rule_built (-1))
      as (_ & _ & _ & _ & H).
    apply H; simpl; lia.
Defined.

(** ** Ordering, further *)

Lemma ascii_compare_refl (c : ascii) : Ascii.compare c c = Eq.
Proof. apply N.compare_refl. Qed.

Lemma string_compare_refl (s : string) : String.compare s s = Eq.
Proof.
  induction s as [|c s IH]; simpl; [reflexivity|].
  now rewrite ascii_compare_refl.
Qed.

Lemma ascii_compare_lt_trans (a b c : ascii) :
  Ascii.compare a b = Lt -> Ascii.compare b c = Lt -> Ascii.compare a c = Lt.
Proof.
  unfold Ascii.compare. rewrite !N.compare_lt_iff. apply N.lt_trans.
Qed.

Lemma string_compare_lt_trans (s1 : string) :
  forall s2 s3,
    String.compare s1 s2 = Lt -> String.compare s2 s3 = Lt ->
    String.compare s1 s3 = Lt.
Proof.
  induction s1 as [|a s1 IH]; intros [|b s2] [|c s3]; simpl;
    try discriminate; auto.
  destruct (Ascii.compare a b) eqn:E1; try discriminate;
    destruct (Ascii.compare b c) eqn:E2; try discriminate; intros H1 H2.
  - apply Ascii.compare_eq_iff in E1, E2. subst.
    rewrite ascii_compare_refl. eauto.
  - apply Ascii.compare_eq_iff in E1. subst. now rewrite E2.
  - apply Ascii.compare_eq_iff in E2. subst. now rewrite E1.
  - now rewrite (ascii_compare_lt_trans a b c E1 E2).
Qed.

Lemma string_ltb_irrefl (s : string) : String.ltb s s = false.
Proof. unfold String.ltb. now rewrite string_compare_refl. Qed.

Lemma string_ltb_trans (a b c : string) :
  String.ltb a b = true -> String.ltb b c = true -> String.ltb a c = true.
Proof.
  unfold String.ltb.
  destruct (String.compare a b) eqn:E1; try discriminate.
  destruct (String.compare b c) eqn:E2; try discriminate.
  now rewrite (string_compare_lt_trans a b c E1 E2).
Qed.

Lemma string_ltb_asym (a b : string) :
  String.ltb a b = true -> String.ltb b a = false.
Proof.
  unfold String.ltb. rewrite (String.compare_antisym b a).
  now destruct (String.compare a b).
Qed.

Lemma string_trichotomy (a b : string) :
  String.ltb a b = true \/ a = b \/ String.ltb b a = true.
Proof.
  unfold String.ltb. rewrite (String.compare_antisym b a).
  destruct (String.compare a b) eqn:E; simpl; auto.
  right. left. now apply String.compare_eq_iff.
Qed.

Lemma lt_one_item (x y : string) :
  tuple_cmp Py.OpLt [KNum (Py.of_int 1); KStr x] [KNum (Py.of_int 1); KStr y]
  = Ok (String.ltb x y).
Proof.
  simpl. destruct (String.eqb_spec x y) as [->|]; [|reflexivity].
  now rewrite string_ltb_irrefl.
Qed.

Lemma lt_two_items (x y : string) :
  tuple_cmp Py.OpLt [KNum (Py.of_int 2); KStr "type"; KStr x]
                    [KNum (Py.of_int 2); KStr "type"; KStr y]
  = Ok (String.ltb x y).
Proof.
  simpl. destruct (String.eqb_spec x y) as [->|]; [|reflexivity].
  now rewrite string_ltb_irrefl.
Qed.

Lemma lt_one_two (x y : string) :
  tuple_cmp Py.OpLt [KNum (Py.of_int 1); KStr x]
                    [KNum (Py.of_int 2); KStr "type"; KStr y] = Ok true
  /\ tuple_cmp Py.OpLt [KNum (Py.of_int 2); KStr "type"; KStr y]
                       [KNum (Py.of_int 1); KStr x] = Ok false.
Proof. split; reflexivity. Qed.

(** [<] between two terms that are not numbers: a term that is not a
    variable is below every variable; otherwise the names decide. *)
Lemma Term___lt___names (a b : term) :
  string_keyed a = true -> string_keyed b = true ->
  Term___lt__ a b
  = Ok (match isinstance_Variable a, isinstance_Variable b with
        | false, true => true
        | true, false => false
        | _, _ => String.ltb (get_name a) (get_name b)
        end).
Proof.
  intros Ha Hb.
  destruct a, b; try discriminate;
    first [ exact (lt_one_item _ _) | exact (lt_two_items _ _)
          | exact (proj1 (lt_one_two _ _)) | exact (proj2 (lt_one_two _ _)) ].
Qed.

Lemma Term___eq___names (a b : term) :
  string_keyed a = true -> string_keyed b = true ->
  Term___eq__ a b
  = Bool.eqb (isinstance_Variable a) (isinstance_Variable b)
    && String.eqb (get_name a) (get_name b).
Proof.
  intros Ha Hb.
  destruct a, b; try discriminate; unfold Term___eq__, get_name; simpl;
    rewrite ?andb_true_r, ?andb_false_r; reflexivity.
Qed.

Lemma Ok_inj {A : Type} (a b : A) : Ok a = Ok b -> a = b.
Proof. intros H. now injection H. Qed.

(** X20: on terms that are not numbers [<] never raises and is a strict
    total order for [==]: irreflexive, asymmetric, transitive, and of two
    terms one is below the other or they are equal.  Every term that is
    not a variable comes before every variable.  Between a number and a
    string-valued term that is not a variable it raises TypeError. *)
Theorem Term_lt_strict_order :
  (forall a b : term,
     string_keyed a = true -> string_keyed b = true ->
     (exists r, Term___lt__ a b = Ok r)
     /\ Term___lt__ a a = Ok false
     /\ (Term___lt__ a b = Ok true -> Term___lt__ b a = Ok false)
     /\ (Term___lt__ a b = Ok true \/ Term___eq__ a b = true
         \/ Term___lt__ b a = Ok true)
     /\ (isinstance_Variable a = false -> isinstance_Variable b = true ->
         Term___lt__ a b = Ok true)
     /\ (forall c, string_keyed c = true ->
           Term___lt__ a b = Ok true -> Term___lt__ b c = Ok true ->
           Term___lt__ a c = Ok true))
  /\ (forall (a : term) (n : Py.number),
        string_keyed a = true -> isinstance_Variable a = false ->
        Term___lt__ a (Number n) = Raise TypeError
        /\ Term___lt__ (Number n) a = Raise TypeError).
Proof.
  split.
  - intros a b Ha Hb.
    rewrite (Term___lt___names a b Ha Hb), (Term___lt___names b a Hb Ha),
      (Term___lt___names a a Ha Ha), (Term___eq___names a b Ha Hb).
    split; [eauto|]. split; [|split; [|split; [|split]]].
    + destruct (isinstance_Variable a); now rewrite string_ltb_irrefl.
    + destruct (isinstance_Variable a), (isinstance_Variable b);
        intros H; apply Ok_inj in H; try discriminate; try reflexivity;
        now rewrite (string_ltb_asym _ _ H).
    + destruct (string_trichotomy (get_name a) (get_name b)) as [H|[H|H]];
        destruct (isinstance_Variable a), (isinstance_Variable b); simpl;
        rewrite ?H, ?String.eqb_refl; auto.
    + now intros -> ->.
    + intros c Hc. rewrite (Term___lt___names b c Hb Hc),
        (Term___lt___names a c Ha Hc).
      destruct (isinstance_Variable a), (isinstance_Variable b),
        (isinstance_Variable c); intros H1 H2;
        apply Ok_inj in H1, H2; try discriminate;
        try reflexivity; now rewrite (string_ltb_trans _ _ _ H1 H2).
  - intros a n Ha Hv. destruct a; try discriminate; split; reflexivity.
Qed.

Lemma Term_lt_strict_order_witness :
  (exists r, Term___lt__ (Constant "ann") (Variable_ "Who") = Ok r)
  /\ Term___lt__ (Variable_ "Who") (Constant "ann") = Ok false
  /\ Term___lt__ (Constant "ann") (Variable_ "Zed") = Ok true
  /\ Term___lt__ (Constant "ann") (Number (Py.of_int 3)) = Raise TypeError.
Proof.
  destruct Term_lt_strict_order as [H1 H2].
  destruct (H1 (Constant "ann") (Variable_ "Who") eq_refl eq_refl)
    as (A & _ & B & _ & _ & C).
  split; [exact A|]. split; [now apply B|]. split.
  - apply (C (Variable_ "Zed")); reflexivity.
  - apply (H2 (Constant "ann") (Py.of_int 3)); reflexivity.
Defined.



(** ** Templates and constants *)

(** X22: a term other than a list of terms is never both a template and
    constant; hence a grounded atom that holds no list of terms is a
    template exactly when its predicate is one. *)
Theorem template_is_not_constant :
  (forall t : term,
     isinstance_ListTerms t = false -> is_template t = true ->
     is_constant t = false)
  /\ (forall a : Atom,
        is_grounded a = true ->
        (forall t, In t (terms a) -> isinstance_ListTerms t = false) ->
        Atom_is_template a = Predicate_is_template (predicate a)).
Proof.
  assert (H : forall t, isinstance_ListTerms t = false ->
                        is_template t = true -> is_constant t = false).
  { intros [v|v|v [|] q|n|ps|items]; simpl; intros; try discriminate; reflexivity. }
  split; [exact H|].
  intros a G L. unfold Atom_is_template.
  replace (existsb is_template (terms a)) with false; [apply orb_false_r|].
  symmetry. apply existsb_is_template_false. intros t Hin.
  unfold is_grounded in G. rewrite forallb_forall in G.
  destruct (is_template t) eqn:T; [|reflexivity].
  specialize (G t Hin). rewrite (H t (L t Hin) T) in G. discriminate.
Qed.

Lemma template_is_not_constant_witness :
  is_constant (Quote "hello {name}" true "'") = false
  /\ Atom_is_template Examples.parent_ann_bob
     = Predicate_is_template (predicate Examples.parent_ann_bob).
Proof.
  destruct template_is_not_constant as [H1 H2].
  split.
  - apply H1; reflexivity.
  - apply H2; [reflexivity|].
    intros t [<-|[<-|[]]]; reflexivity.
Defined.

(** ** Simple keys *)

Lemma simple_term_up_to_values (x y : term) :
  same_up_to_values x y -> simple_term x = simple_term y.
Proof.
  unfold simple_term. intros [[Hx Hy] | [[Hx Hy] | -> ]].
  - now rewrite Hx, Hy.
  - now rewrite Hx, Hy, !orb_true_r.
  - reflexivity.
Qed.

(** X23: the simple key of an atom does not depend on its weight or its
    provenance, nor on the values of its numbers or on which non-constant
    terms it holds; two atoms whose simple keys are equal have equal
    predicates and, wherever one holds a constant that is not a number, the
    other holds an equal constant that is not a number; and the simple key
    of an atom clause is that of the atom it was built from. *)
Theorem simple_key_ignores_values :
  (forall (a : Atom) (w : Py.number) (p : option ClauseProvenance),
     Atom_simple_key (with_weight a w) = Atom_simple_key a
     /\ Atom_simple_key (with_provenance a p) = Atom_simple_key a)
  /\ (forall a b : Atom,
        predicate a = predicate b ->
        Forall2 same_up_to_values (terms a) (terms b) ->
        Atom_simple_key a = Atom_simple_key b)
  /\ (forall a b : Atom,
        simple_key_eqb (Atom_simple_key a) (Atom_simple_key b) = true ->
        Predicate_eq (predicate a) (predicate b) = true
        /\ List.length (terms a) = List.length (terms b)
        /\ forall i x y,
             nth_error (terms a) i = Some x -> nth_error (terms b) i = Some y ->
             isinstance_Number x = false -> is_constant x = true ->
             Term___eq__ x y = true
             /\ isinstance_Number y = false /\ is_constant y = true)
  /\ (forall (a : Atom) (c : AtomClause),
        AtomClause_init a = Ok c ->
        AtomClause_simple_key c = Atom_simple_key a).
Proof.
  split; [|split; [|split]].
  - intros a w p. split; reflexivity.
  - intros a b P F. unfold Atom_simple_key. rewrite P. f_equal.
    induction F as [|x y xs ys R _ IH]; simpl; [reflexivity|].
    now rewrite (simple_term_up_to_values x y R), IH.
  - intros a b H. unfold simple_key_eqb, Atom_simple_key in H. simpl in H.
    apply andb_true_iff in H as [P T]. split; [exact P|].
    apply tuple_eqb_pointwise in T as [L T]. rewrite !length_map in L.
    split; [exact L|].
    intros i x y Hx Hy Nx Cx.
    specialize (T i (simple_term x) (simple_term y)).
    rewrite !nth_error_map, Hx, Hy in T. specialize (T eq_refl eq_refl).
    unfold simple_term in T. rewrite Nx, Cx in T. simpl in T.
    destruct (isinstance_Number y || negb (is_constant y)) eqn:E;
      [discriminate|].
    apply orb_false_iff in E as [Ny Cy]. apply negb_false_iff in Cy. auto.
  - intros a c H. unfold AtomClause_init in H.
    destruct (Atom_init (inl (predicate a)) (map ArgTerm (terms a)) (weight a) None)
      as [a'|] eqn:E; simpl in H; [|discriminate].
    injection H as <-.
    destruct (proj1 Atom_init_invariant _ _ _ _ _ E) as (_ & Hb & _ & _ & Hp).
    rewrite build_terms_of_terms in Hb. injection Hb as Hb.
    unfold AtomClause_simple_key, Atom_simple_key. simpl. now rewrite Hp, <- Hb.
Qed.

Lemma simple_key_ignores_values_witness :
  Atom_simple_key
    (mkAtom (Predicate_init "age" 2) [Constant "ann"; Number (Py.of_int 30)]
            Py.float_one None)
  = Atom_simple_key
      (mkAtom (Predicate_init "age" 2) [Constant "ann"; Number (Py.of_int 31)]
              (Py.mkNumber (1 # 2) "0.5") Examples.kb_line_3)
  /\ Predicate_eq (predicate Examples.parent_ann_bob)
                  (predicate Examples.parent_quoted_ann_bob) = true
  /\ AtomClause_simple_key (mkAtomClause Examples.parent_quoted_ann_bob None)
     = Atom_simple_key Examples.parent_quoted_ann_bob.
Proof.
  destruct simple_key_ignores_values as (_ & H2 & H3 & H4).
  split; [|split].
  - apply H2; [reflexivity|].
    constructor; [right; right; reflexivity|].
    constructor; [left; split; reflexivity | constructor].
  - apply (H3 Examples.parent_ann_bob Examples.parent_quoted_ann_bob).
    reflexivity.
  - apply H4. reflexivity.
Defined.

(** ** An atom is an instance of its renaming *)

Lemma Variable_ne_other (k : term) (x : string) :
  isinstance_Variable k = false ->
  Term___eq__ k (Variable_ x) = false /\ Term___eq__ (Variable_ x) k = false.
Proof.
  intros H. destruct k; try discriminate; unfold Term___eq__; simpl;
    now rewrite ?andb_false_r.
Qed.

Lemma constant_not_Variable (t : term) :
  is_constant t = true -> isinstance_Variable t = false.
Proof. now destruct t. Qed.

Lemma index_of_nth (seen : list term) (t : term) :
  forall j, index_of seen t = Some j ->
            exists sj, nth_error seen j = Some sj /\ Term___eq__ sj t = true.
Proof.
  induction seen as [|s seen IH]; simpl; intros j H; [discriminate|].
  destruct (Term___eq__ s t) eqn:E.
  - injection H as <-. exists s. auto.
  - destruct (index_of seen t) as [i|]; [|discriminate].
    injection H as <-. destruct (IH i eq_refl) as (sj & Hn & He).
    exists sj. auto.
Qed.

Lemma binds_seen_fresh (seen : list term) (d : dict term) :
  binds_seen seen d ->
  dict_get d (position_variable (List.length seen)) = None.
Proof.
  intros [_ H]. destruct (dict_get d (position_variable (List.length seen)))
    as [v|] eqn:D; [|reflexivity].
  destruct (dict_get_In _ _ _ D) as (k & Hin & Hk).
  destruct (H k v Hin) as [(j & Hj & ->)|[Hv _]].
  - rewrite position_variable_eqb in Hk. apply Nat.eqb_eq in Hk. lia.
  - destruct (Variable_ne_other k (position_name (List.length seen)) Hv) as [E _].
    unfold position_variable in Hk. congruence.
Qed.

Lemma binds_seen_variable (seen : list term) (d : dict term) (t : term) :
  binds_seen seen d ->
  binds_seen (seen ++ [t])
             (d ++ [(position_variable (List.length seen), t)]).
Proof.
  intros B. pose proof (binds_seen_fresh seen d B) as F.
  destruct B as [B1 B2]. split.
  - intros j sj Hj. rewrite dict_get_app.
    destruct (Nat.lt_ge_cases j (List.length seen)) as [Hlt|Hge].
    + rewrite nth_error_app1 in Hj by exact Hlt. now rewrite (B1 j sj Hj).
    + rewrite nth_error_app2 in Hj by exact Hge.
      destruct (j - List.length seen)%nat as [|n] eqn:E; simpl in Hj.
      * injection Hj as <-. replace j with (List.length seen) by lia.
        rewrite F. simpl. now rewrite Term___eq___refl.
      * now destruct n.
  - intros k v Hin. rewrite length_app. simpl.
    apply in_app_or in Hin as [Hin|[Hin|[]]].
    + destruct (B2 k v Hin) as [(j & Hj & E)|H]; [|now right].
      left. exists j. split; [lia | exact E].
    + injection Hin as <- <-. left. exists (List.length seen). split; [lia|reflexivity].
Qed.

Lemma binds_seen_constant (seen : list term) (d : dict term) (c t : term) :
  binds_seen seen d -> isinstance_Variable c = false ->
  Term___eq__ c t = true -> binds_seen seen (d ++ [(c, t)]).
Proof.
  intros [B1 B2] Hc Hct. split.
  - intros j sj Hj. now rewrite dict_get_app, (B1 j sj Hj).
  - intros k v Hin. apply in_app_or in Hin as [Hin|[Hin|[]]]; [now apply B2|].
    injection Hin as <- <-. now right.
Qed.

Lemma substitution_loop_renamed (g s : Atom) (ts : list term) :
  forall (k : nat) (gpre spre seen : list term) (d : dict term),
    terms g = gpre ++ canonical_terms seen ts ->
    terms s = spre ++ ts ->
    List.length gpre = k -> List.length spre = k ->
    binds_seen seen d ->
    exists sigma,
      substitution_loop g s (seq k (List.length ts)) d = Ok (Some sigma).
Proof.
  induction ts as [|t ts IH]; intros k gpre spre seen d Hg Hs Lg Ls B.
  - simpl. eauto.
  - assert (step : forall c seen' d',
              canonical_terms seen (t :: ts) = c :: canonical_terms seen' ts ->
              binds_seen seen' d' ->
              exists sigma,
                substitution_loop g s (seq (S k) (List.length ts)) d'
                = Ok (Some sigma)).
    { intros c seen' d' E B'. rewrite E in Hg.
      apply (IH (S k) (gpre ++ [c]) (spre ++ [t]) seen' d');
        rewrite <- ?app_assoc, ?length_app; simpl; auto; lia. }
    assert (Gk : forall c seen',
              canonical_terms seen (t :: ts) = c :: canonical_terms seen' ts ->
              list_index (terms g) k = Ok c).
    { intros c seen' E. unfold list_index.
      rewrite Hg, E, nth_error_app2, Lg, Nat.sub_diag by lia. reflexivity. }
    assert (Sk : list_index (terms s) k = Ok t).
    { unfold list_index.
      rewrite Hs, nth_error_app2, Ls, Nat.sub_diag by lia. reflexivity. }
    simpl List.length. simpl seq. simpl substitution_loop. rewrite Sk.
    simpl canonical_terms in step, Gk.
    destruct (is_constant t) eqn:C.
    + rewrite (Gk _ seen eq_refl). simpl bind.
      destruct (kept_constant_is_constant t C) as [C' _].
      assert (E : Term___eq__ (kept_constant t) t = true)
        by (unfold Term___eq__; rewrite kept_constant_key;
            apply tuple_eqb_refl, kval_eqb_refl).
      unfold Term___ne__ at 1. rewrite E, andb_false_r.
      pose proof (constant_not_Variable _ C') as NV.
      destruct (dict_get d (kept_constant t)) as [v|] eqn:D.
      * destruct (dict_get_In _ _ _ D) as (key & Hin & Hk).
        destruct B as [B1 B2].
        destruct (B2 key v Hin) as [(j & _ & ->)|[_ Hv]].
        -- destruct (Variable_ne_other _ (position_name j) NV) as [_ F].
           unfold position_variable in Hk. congruence.
        -- assert (Hvt : Term___eq__ v t = true).
           { rewrite Term___eq___sym in Hv.
             eapply Term___eq___trans; [exact Hv|].
             eapply Term___eq___trans; eauto. }
           unfold Term___ne__. rewrite Hvt. simpl.
           apply (step _ seen d eq_refl). now split.
      * rewrite (dict_set_absent _ _ _ D).
        apply (step _ seen _ eq_refl). now apply binds_seen_constant.
    + destruct (index_of seen t) as [j|] eqn:I.
      * rewrite (Gk _ seen eq_refl). simpl bind.
        destruct (index_of_nth _ _ _ I) as (sj & Hn & He).
        destruct B as [B1 B2]. fold (position_variable j).
        rewrite (B1 j sj Hn). unfold Term___ne__. rewrite He. simpl.
        apply (step _ seen d eq_refl). now split.
      * rewrite (Gk _ (seen ++ [t]) eq_refl). simpl bind.
        fold (position_variable (List.length seen)).
        rewrite (binds_seen_fresh _ _ B).
        rewrite (dict_set_absent _ _ _ (binds_seen_fresh _ _ B)).
        apply (step _ (seen ++ [t]) _ eq_refl). now apply binds_seen_variable.
Qed.

(** X24: every atom left by its constructor is an instance of its canonical
    renaming: [get_substitution], given the renamed atom as the generic one
    and the atom itself as the specific one, returns a substitution. *)
Theorem renamed_atom_unifies_with_atom (a : Atom) :
  well_formed a = true ->
  exists r sigma,
    get_renamed_atom a = Ok r /\ get_substitution r a = Ok (Some sigma).
Proof.
  intros W.
  pose (r := mkAtom (predicate a) (canonical_terms [] (terms a)) Py.float_one None).
  destruct (substitution_loop_renamed r a (terms a) 0%nat [] [] [] [])
    as [sigma H]; try reflexivity.
  { split; [intros [|j] sj Hj; discriminate | intros k v []]. }
  exists r, sigma. split; [now apply get_renamed_atom_canonical|].
  unfold get_substitution, Atom_arity. simpl predicate.
  rewrite Predicate_ne_refl. unfold range.
  unfold well_formed in W. apply Z.eqb_eq in W. now rewrite W, Nat2Z.id.
Qed.

Lemma renamed_atom_unifies_with_atom_witness :
  exists r sigma,
    get_renamed_atom Examples.p_B_k_B = Ok r
    /\ get_substitution r Examples.p_B_k_B = Ok (Some sigma).
Proof.
  apply (renamed_atom_unifies_with_atom Examples.p_B_k_B). reflexivity.
Defined.
